(** * mailchannels2smtp: the send endpoint, its dry-run renderer and its SMTP path

    A shallow embedding of [main.go]: the request model, [renderMessage],
    [formatAddressList], [sendEmails] and [handleSendEmail], together with the
    parts of [gopkg.in/gomail.v2] and of the Go standard library that these
    functions call. The SMTP relay is an explicit state that every dial, send
    and close goes through, and every such call is recorded in a trace. *)

From Stdlib Require Import ZArith Ascii String List Lia.
From stdpp Require Import base option list strings pretty gmap.

Local Open Scope Z_scope.

(** ** Strings as Go writes them *)

(** The line feed written [\n] in Go string literals. *)
Definition LF : string := String (ascii_of_nat 10) EmptyString.
(** The double quote character. *)
Definition DQUOTE : ascii := ascii_of_nat 34.
(** The backslash character. *)
Definition BACKSLASH : ascii := ascii_of_nat 92.

(** [strings.Join(elems, sep)]. *)
Fixpoint Join (elems : list string) (sep : string) : string :=
  match elems with
  | [] => EmptyString
  | [e] => e
  | e :: rest => e +:+ sep +:+ Join rest sep
  end.

(** The Go idiom
    [out := make([]T, len(xs)); for i, x := range xs { out[i] = f(x) }]:
    a slice of zero values of the right length, written index by index. *)
Definition fill_indexed {A B : Type} (zero : B) (f : A → B) (xs : list A) : list B :=
  fold_left (λ out ix, <[ fst ix := f (snd ix) ]> out)
            (imap (λ i x, (i, x)) xs)
            (replicate (length xs) zero).

(** ** The Go standard library functions the program calls *)

(** The code of a byte of a Go string. *)
Definition code (c : ascii) : Z := Z.of_N (N_of_ascii c).

Definition chars (s : string) : list ascii := list_ascii_of_string s.

(** [len(s)] of a Go string: its number of bytes. *)
Definition len (s : string) : Z := Z.of_nat (String.length s).

Module strconv.

(** [strconv.IntSize] on the 64-bit platforms the service is built for. *)
Definition IntSize : Z := 64.

(** [NumError.Err]: the two failures of the integer parsers. *)
Inductive NumError : Type := ErrSyntax | ErrRange.

(** The digit loop of [ParseUint(s, 10, 64)]: a byte that is no decimal
    digit is a syntax error with value 0; an overflow returns at once with
    the largest value and a range error, before the bytes after it are
    looked at. *)
Fixpoint ParseUint_loop (s : list ascii) (n : Z) : Z * option NumError :=
  let cutoff := (2 ^ 64 - 1) / 10 + 1 in
  let maxVal := 2 ^ 64 - 1 in
  match s with
  | [] => (n, None)
  | c :: rest =>
      if negb ((code "0" <=? code c) && (code c <=? code "9")) then (0, Some ErrSyntax)
      else
        let d := code c - code "0" in
        if cutoff <=? n then (maxVal, Some ErrRange)
        else
          let n := n * 10 in
          let n1 := (n + d) mod 2 ^ 64 in
          if (n1 <? n) || (maxVal <? n1) then (maxVal, Some ErrRange)
          else ParseUint_loop rest n1
  end.

Definition ParseUint (s : string) : Z * option NumError :=
  match s with
  | EmptyString => (0, Some ErrSyntax)
  | _ => ParseUint_loop (chars s) 0
  end.

(** [ParseInt(s, 10, 0)]. *)
Definition ParseInt (s : string) : Z * option NumError :=
  match s with
  | EmptyString => (0, Some ErrSyntax)
  | String c rest =>
      let neg := Ascii.eqb c "-" in
      let s := if Ascii.eqb c "+" || Ascii.eqb c "-" then rest else s in
      let '(un, err) := ParseUint s in
      match err with
      | Some ErrSyntax => (0, err)
      | _ =>
          let cutoff := 2 ^ (IntSize - 1) in
          if negb neg && (cutoff <=? un) then (cutoff - 1, Some ErrRange)
          else if neg && (cutoff <? un) then (- cutoff, Some ErrRange)
          else (if neg then - un else un, None)
      end
  end.

(** The digit loop of the fast path of [Atoi]; [ch -= '0'] wraps in a byte. *)
Fixpoint Atoi_fast_loop (s : list ascii) (n : Z) : Z * option NumError :=
  match s with
  | [] => (n, None)
  | ch :: rest =>
      let ch := (code ch - code "0") mod 256 in
      if 9 <? ch then (0, Some ErrSyntax)
      else Atoi_fast_loop rest (n * 10 + ch)
  end.

(** [strconv.Atoi]: the value and the error ([None] is [nil]). *)
Definition Atoi (s : string) : Z * option NumError :=
  let sLen := len s in
  if (0 <? sLen) && (sLen <? 19) then
    match s with
    | EmptyString => (0, Some ErrSyntax)
    | String c rest =>
        let signed := Ascii.eqb c "-" || Ascii.eqb c "+" in
        let s1 := if signed then rest else s in
        if signed && (len s1 <? 1) then (0, Some ErrSyntax)
        else
          let '(n, err) := Atoi_fast_loop (chars s1) 0 in
          match err with
          | Some e => (0, Some e)
          | None => (if Ascii.eqb c "-" then - n else n, None)
          end
    end
  else ParseInt s.

End strconv.

Module base64.

(** [decodeMap] of [StdEncoding]: the 6-bit value of a byte of the alphabet
    [A-Z a-z 0-9 + /], [None] where Go's table holds [0xff]. *)
Definition decodeMap (c : ascii) : option Z :=
  let n := code c in
  if (code "A" <=? n) && (n <=? code "Z") then Some (n - code "A")
  else if (code "a" <=? n) && (n <=? code "z") then Some (n - code "a" + 26)
  else if (code "0" <=? n) && (n <=? code "9") then Some (n - code "0" + 52)
  else if n =? code "+" then Some 62
  else if n =? code "/" then Some 63
  else None.

Definition newline (c : ascii) : bool := (code c =? 10) || (code c =? 13).

(** The loops [for si < len(src) && (src[si] == '\n' || src[si] == '\r')]. *)
Fixpoint skip_newlines (src : list ascii) (si : Z) : list ascii * Z :=
  match src with
  | c :: rest => if newline c then skip_newlines rest (si + 1) else (src, si)
  | [] => ([], si)
  end.

Definition byte_of (n : Z) : Byte.byte :=
  byte_of_ascii (ascii_of_N (Z.to_N (n mod 256))).

(** The bytes a quantum of [dlen] collected 6-bit values yields. *)
Definition quantum_bytes (dbuf : list Z) : list Byte.byte :=
  let val := Z.lor (Z.lor (Z.lor (Z.shiftl (nth 0 dbuf 0) 18) (Z.shiftl (nth 1 dbuf 0) 12))
                          (Z.shiftl (nth 2 dbuf 0) 6)) (nth 3 dbuf 0) in
  take (length dbuf - 1)
       [byte_of (Z.shiftr val 16); byte_of (Z.shiftr val 8); byte_of val].

(** [Decode] as the repetition of [decodeQuantum]: [si] is the index of the
    next byte, [j] the position in the quantum, [dbuf] the values collected
    for it, [out] the bytes decoded so far. The result is the decoded bytes
    or the offset of a [CorruptInputError]. *)
Fixpoint Decode_loop (src : list ascii) (si : Z) (j : nat) (dbuf : list Z)
         (out : list Byte.byte) (srclen : Z) : list Byte.byte + Z :=
  match src with
  | [] => match j with O => inl out | _ => inr (si - Z.of_nat j) end
  | c :: rest =>
      let si := si + 1 in
      match decodeMap c with
      | Some v =>
          match j with
          | 3%nat => Decode_loop rest si 0 [] (out ++ quantum_bytes (dbuf ++ [v]))%list srclen
          | _ => Decode_loop rest si (S j) (dbuf ++ [v])%list out srclen
          end
      | None =>
          if newline c then Decode_loop rest si j dbuf out srclen
          else if negb (Ascii.eqb c "=") then inr (si - 1)
          else
            let trailing (rest : list ascii) (si : Z) :=
              let '(rest, si) := skip_newlines rest si in
              match rest with
              | [] => inl (out ++ quantum_bytes dbuf)%list
              | _ => inr si
              end in
            match j with
            | 0%nat | 1%nat => inr (si - 1)
            | 2%nat =>
                let '(rest, si) := skip_newlines rest si in
                match rest with
                | [] => inr srclen
                | c2 :: rest =>
                    if negb (Ascii.eqb c2 "=") then inr (si - 1)
                    else trailing rest (si + 1)
                end
            | _ => trailing rest si
            end
      end
  end.

(** [base64.StdEncoding.DecodeString]: the bytes, or the text of the
    [CorruptInputError]. *)
Definition DecodeString (s : string) : list Byte.byte + string :=
  match Decode_loop (chars s) 0 0 [] [] (len s) with
  | inl bs => inl bs
  | inr off => inr ("illegal base64 data at input byte " +:+ pretty off)
  end.

End base64.

Module mime.

(** [needsEncoding] of package [mime]: some byte is neither printable ASCII
    nor a tab. *)
Definition needsEncoding (s : string) : bool :=
  existsb (λ b, ((code b <? code " ") || (code "~" <? code b)) && negb (code b =? 9))
          (chars s).

End mime.

Module filepath.

Definition slash (c : ascii) : bool := Ascii.eqb c "/".

Fixpoint strip_leading (f : ascii → bool) (l : list ascii) : list ascii :=
  match l with
  | c :: rest => if f c then strip_leading f rest else l
  | [] => []
  end.

Fixpoint leading (f : ascii → bool) (l : list ascii) : list ascii :=
  match l with
  | c :: rest => if f c then c :: leading f rest else []
  | [] => []
  end.

(** [filepath.Base] on Unix: trailing slashes are stripped, the last element
    is kept; [.] for the empty path and [/] for a path of slashes only. *)
Definition Base (path : string) : string :=
  match path with
  | EmptyString => "."
  | _ =>
      let stripped := strip_leading slash (rev (chars path)) in
      match stripped with
      | [] => "/"
      | _ => string_of_list_ascii (rev (leading (λ c, negb (slash c)) stripped))
      end
  end.

End filepath.

(** ** Request model (main.go, lines 18-56) *)

Module EmailAddress.
Record t : Type := mk { Name : string; Email : string }.
End EmailAddress.

Module Attachment.
Record t : Type := mk { Filename : string; Type_ : string; Content : string }.
End Attachment.

Module ContentItem.
Record t : Type := mk { Type_ : string; Value : string }.
End ContentItem.

(** A Go [map[string]string] is read by the program only through [range];
    it is kept as its entries in the order in which the [range] statement
    visits them, an order the Go runtime leaves unspecified. *)
Abbreviation StringMap := (list (string * string)).

Module Personalization.
Record t : Type := mk {
  To : list EmailAddress.t;
  CC : list EmailAddress.t;
  BCC : list EmailAddress.t;
  Subject : string;
  Headers : StringMap;
  DKIMDomain : string;
  DKIMPrivateKey : string;
  DKIMSelector : string;
  ReplyTo : option EmailAddress.t;
  From : EmailAddress.t
}.
End Personalization.

Module MailSendBody.
Record t : Type := mk {
  Headers : StringMap;
  Personalizations : list Personalization.t;
  Attachments : list Attachment.t;
  ReplyTo : option EmailAddress.t;
  Subject : string;
  From : EmailAddress.t;
  MailFrom : option EmailAddress.t;
  Content : list ContentItem.t
}.
End MailSendBody.

(** ** Dry-run renderer (main.go, lines 208-252) *)

(** [fmt.Sprintf("%s <%s>", addr.Name, addr.Email)]. *)
Definition sprintf_address (addr : EmailAddress.t) : string :=
  EmailAddress.Name addr +:+ " <" +:+ EmailAddress.Email addr +:+ ">".

Definition formatAddressList (addresses : list EmailAddress.t) : string :=
  let formatted := fill_indexed EmptyString sprintf_address addresses in
  Join formatted ", ".

(** The [Reply-To] block of [renderMessage] (lines 221-225). *)
Definition renderReplyTo (mailBody : MailSendBody.t) (p : Personalization.t) : string :=
  match Personalization.ReplyTo p with
  | Some r =>
      "Reply-To: " +:+ EmailAddress.Name r +:+ " <" +:+ EmailAddress.Email r +:+ ">" +:+ LF
  | None =>
      match MailSendBody.ReplyTo mailBody with
      | Some r =>
          "Reply-To: " +:+ EmailAddress.Name r +:+ " <" +:+ EmailAddress.Email r +:+ ">" +:+ LF
      | None => EmptyString
      end
  end.

(** One iteration of the loop over [p.Headers] (line 228). *)
Definition renderHeader (kv : string * string) : string :=
  fst kv +:+ ": " +:+ snd kv +:+ LF.

(** One iteration of the loop over [mailBody.Content] (lines 234-236). *)
Definition renderContent (content : ContentItem.t) : string :=
  ("Content-Type: " +:+ ContentItem.Type_ content +:+ LF +:+ LF)
    +:+ ContentItem.Value content
    +:+ (LF +:+ LF).

(** One iteration of the loop over [mailBody.Attachments] (line 240). *)
Definition renderAttachment (attachment : Attachment.t) : string :=
  "Attachment: " +:+ Attachment.Filename attachment
    +:+ " (Type: " +:+ Attachment.Type_ attachment +:+ ")" +:+ LF.

(** [sb.WriteString] over a loop: the pieces appended to the builder in order. *)
Definition writeAll {A : Type} (f : A → string) (xs : list A) (sb : string) : string :=
  fold_left (λ sb x, sb +:+ f x) xs sb.

Definition renderMessage (mailBody : MailSendBody.t) (p : Personalization.t) : string :=
  let sb := EmptyString in
  let sb := sb +:+ ("From: " +:+ EmailAddress.Name (MailSendBody.From mailBody)
                     +:+ " <" +:+ EmailAddress.Email (MailSendBody.From mailBody) +:+ ">" +:+ LF) in
  let sb := sb +:+ ("To: " +:+ formatAddressList (Personalization.To p) +:+ LF) in
  let sb := if (0 <? Z.of_nat (length (Personalization.CC p)))
            then sb +:+ ("CC: " +:+ formatAddressList (Personalization.CC p) +:+ LF)
            else sb in
  let sb := if (0 <? Z.of_nat (length (Personalization.BCC p)))
            then sb +:+ ("BCC: " +:+ formatAddressList (Personalization.BCC p) +:+ LF)
            else sb in
  let sb := sb +:+ ("Subject: " +:+ Personalization.Subject p +:+ LF) in
  let sb := sb +:+ renderReplyTo mailBody p in
  let sb := writeAll renderHeader (Personalization.Headers p) sb in
  let sb := sb +:+ LF in
  let sb := writeAll renderContent (MailSendBody.Content mailBody) sb in
  let sb := writeAll renderAttachment (MailSendBody.Attachments mailBody) sb in
  sb.

(** ** The mail library: messages (gomail.v2, message.go) *)

Module gomail.

(** A body part: its content type and the text its copier writes. *)
Record part : Type := mkPart { contentType : string; copier : string }.

(** An attached file: its name, its (empty) header and the bytes its
    [CopyFunc] writes. *)
Record file : Type := mkFile {
  Name : string;
  Header : gmap string (list string);
  CopyFunc : list Byte.byte
}.

Record Message : Type := mkMessage {
  header : gmap string (list string);
  parts : list part;
  attachments : list file
}.

(** The two encoders of package [mime] on a string that [needsEncoding]:
    [QEncoding] and [BEncoding] with charset UTF-8. *)
Class WordEncoder : Type := {
  QEncodeWord : string → string;
  BEncodeWord : string → string
}.

Definition NewMessage : Message :=
  {| header := ∅; parts := []; attachments := [] |}.

Section Encoders.
Context {enc : WordEncoder}.

(** [m.encodeString]: [mime.QEncoding.Encode(m.charset, value)], which
    returns its argument when nothing in it needs encoding. *)
Definition encodeString (value : string) : string :=
  if mime.needsEncoding value then QEncodeWord value else value.

(** [SetHeader] stores the encoded values under the field, replacing what
    the field held. *)
Definition SetHeader (field : string) (value : list string) (m : Message) : Message :=
  {| header := <[ field := encodeString <$> value ]> (header m);
     parts := parts m;
     attachments := attachments m |}.

Definition hasSpecials (text : string) : bool :=
  existsb (λ c, bool_decide (c ∈ chars ("()<>[]:;@,." +:+ String BACKSLASH (String DQUOTE EmptyString))))
          (chars text).

(** The loop of [FormatAddress] that writes the name between quotes. *)
Fixpoint quoteName (name : list ascii) : list ascii :=
  match name with
  | [] => []
  | b :: rest =>
      if Ascii.eqb b BACKSLASH || Ascii.eqb b DQUOTE
      then BACKSLASH :: b :: quoteName rest
      else b :: quoteName rest
  end.

Definition FormatAddress (address name : string) : string :=
  match name with
  | EmptyString => address
  | _ =>
      let enc := encodeString name in
      let buf :=
        if String.eqb enc name then
          String DQUOTE (string_of_list_ascii (quoteName (chars name)))
            +:+ String DQUOTE EmptyString
        else if hasSpecials name then BEncodeWord name
        else enc in
      buf +:+ " <" +:+ address +:+ ">"
  end.
End Encoders.

(** [SetBody] replaces every part set before by the one it is given. *)
Definition SetBody (contentType body : string) (m : Message) : Message :=
  {| header := header m;
     parts := [ {| contentType := contentType; copier := body |} ];
     attachments := attachments m |}.

(** [Attach(filename, SetCopyFunc(f))], with the bytes [f] writes. *)
Definition Attach (filename : string) (content : list Byte.byte) (m : Message) : Message :=
  {| header := header m;
     parts := parts m;
     attachments := attachments m ++
       [ {| Name := filepath.Base filename; Header := ∅; CopyFunc := content |} ] |}.

(** *** The dialer (gomail.v2, smtp.go) *)

Record Dialer : Type := mkDialer {
  Host : string;
  Port : Z;
  Username : string;
  Password : string;
  SSL : bool;
  TLSConfig : option unit
}.

Definition NewDialer (host : string) (port : Z) (username password : string) : Dialer :=
  {| Host := host; Port := port; Username := username; Password := password;
     SSL := port =? 465; TLSConfig := None |}.

Definition set_SSL (b : bool) (d : Dialer) : Dialer :=
  {| Host := Host d; Port := Port d; Username := Username d; Password := Password d;
     SSL := b; TLSConfig := TLSConfig d |}.

Definition set_TLSConfig (c : option unit) (d : Dialer) : Dialer :=
  {| Host := Host d; Port := Port d; Username := Username d; Password := Password d;
     SSL := SSL d; TLSConfig := c |}.

End gomail.

(** ** The SMTP relay and the trace of what is done to it *)

(** The calls [DialAndSend] makes, with the error each returned ([None] is
    [nil]): of [d.Dial], of [gomail.Send] on the connection it dialled, and
    of the deferred [Close]. *)
Inductive Event : Type :=
  | EvDial (d : gomail.Dialer) (err : option string)
  | EvSend (m : gomail.Message) (err : option string)
  | EvClose.

(** The relay as the dialer sees it: [Dial] (connection, handshake and
    authentication), [Send] of one message, [Close]. Each may depend on, and
    change, the state of the relay. [Send] stands for the whole of
    [gomail.Send]: when the relay drops the connection at [MAIL], the sender
    dials again by itself and sends over the new connection, so that one call
    may open further connections; the count of the connections is a matter
    of the relay's state, not of the trace. *)
Class Relay (Net : Type) : Type := {
  net_dial : gomail.Dialer → Net → option string * Net;
  net_send : gomail.Message → Net → option string * Net;
  net_close : Net → Net
}.

Record World (Net : Type) : Type := mkWorld { net : Net; trace : list Event }.
Arguments mkWorld {Net} _ _.
Arguments net {Net} _.
Arguments trace {Net} _.

(** Computations that act on the relay. *)
Definition M (Net A : Type) : Type := World Net → A * World Net.

#[export] Instance M_ret {Net : Type} : MRet (M Net) := λ A a w, (a, w).

#[export] Instance M_bind {Net : Type} : MBind (M Net) :=
  λ A B f m w, match m w with (a, w') => f a w' end.

Section Relay.
Context {Net : Type} {relay : Relay Net}.

Definition Dial (d : gomail.Dialer) : M Net (option string) :=
  λ w, match net_dial d (net w) with
       | (err, n) => (err, {| net := n; trace := trace w ++ [EvDial d err] |})
       end.

Definition Send (m : gomail.Message) : M Net (option string) :=
  λ w, match net_send m (net w) with
       | (err, n) => (err, {| net := n; trace := trace w ++ [EvSend m err] |})
       end.

Definition Close : M Net unit :=
  λ w, (tt, {| net := net_close (net w); trace := trace w ++ [EvClose] |}).

(** [d.DialAndSend(m)]: dial, and when that succeeds send the message and
    close the sender. [gomail.Send] wraps the error of the one message. *)
Definition DialAndSend (d : gomail.Dialer) (m : gomail.Message) : M Net (option string) :=
  err ← Dial d;
  match err with
  | Some e => mret (Some e)
  | None =>
      err ← Send m;
      Close;;
      mret ((λ e, "gomail: could not send email 1: " +:+ e) <$> err)
  end.

End Relay.

(** ** Sending (main.go, lines 139-206) *)

(** The process environment; [os.Getenv] gives the empty string for a
    variable that is not set. *)
Definition Getenv (env : gmap string string) (key : string) : string :=
  default EmptyString (env !! key).

(** The three errors [sendEmails] builds with [fmt.Errorf], kept apart by the
    return statement that builds them. *)
Inductive SendError : Type :=
  | InvalidEncrypt (smtpEncrypt : string)
  | AttachmentDecode (err : string)
  | SendFailed (err : string).

(** [err.Error()]. *)
Definition Error (e : SendError) : string :=
  match e with
  | InvalidEncrypt smtpEncrypt => "invalid SMTP_ENCRYPT value: " +:+ smtpEncrypt
  | AttachmentDecode err => "failed to decode attachment content: " +:+ err
  | SendFailed err => "failed to send email: " +:+ err
  end.

(** The [switch smtpEncrypt] (lines 148-159). *)
Definition configureEncryption (smtpEncrypt : string) (d : gomail.Dialer)
  : gomail.Dialer + SendError :=
  if String.eqb smtpEncrypt "SSL" then inl (gomail.set_SSL true d)
  else if String.eqb smtpEncrypt "TLS" then
    inl (gomail.set_TLSConfig None (gomail.set_SSL false d))
  else if String.eqb smtpEncrypt "PLAIN" then
    inl (gomail.set_TLSConfig None (gomail.set_SSL false d))
  else inr (InvalidEncrypt smtpEncrypt).

(** ** Requests and responses of the handler *)

(** What the handler writes: the text [http.Error] prints, the value handed
    to the JSON encoder, or nothing. *)
Inductive ResponseBody : Type :=
  | Plain (text : string)
  | JSON (object : list (string * list string))
  | NoBody.

Record Response : Type := mkResponse { Status : Z; Body : ResponseBody }.

Definition StatusOK : Z := 200.
Definition StatusAccepted : Z := 202.
Definition StatusBadRequest : Z := 400.
Definition StatusMethodNotAllowed : Z := 405.
Definition StatusInternalServerError : Z := 500.

(** [http.Error(w, error, code)]: the status and the text followed by a
    line feed ([fmt.Fprintln]). *)
Definition http_Error (error : string) (code : Z) : Response :=
  {| Status := code; Body := Plain (error +:+ LF) |}.

(** [url.Values.Get]: the first value of the key, or the empty string. *)
Definition Values_Get (v : gmap string (list string)) (key : string) : string :=
  match v !! key with
  | Some (x :: _) => x
  | _ => EmptyString
  end.

(** The request as the handler reads it: the method, the parsed query and
    what [json.NewDecoder(r.Body).Decode(&mailBody)] gives, [None] when it
    returns an error. *)
Record Request : Type := mkRequest {
  Method : string;
  Query : gmap string (list string);
  Decode : option MailSendBody.t
}.

Section Compose.
Context {enc : gomail.WordEncoder}.

(** The loops over [p.To], [p.CC] and [p.BCC] (lines 164-172): one
    [SetHeader] of the same field per address. *)
Definition setAddressHeaders (field : string) (addresses : list EmailAddress.t)
           (m : gomail.Message) : gomail.Message :=
  fold_left
    (λ m a, gomail.SetHeader field
              [gomail.FormatAddress (EmailAddress.Email a) (EmailAddress.Name a)] m)
    addresses m.

(** The [Reply-To] block (lines 175-179). *)
Definition setReplyTo (mailBody : MailSendBody.t) (p : Personalization.t)
           (m : gomail.Message) : gomail.Message :=
  match Personalization.ReplyTo p with
  | Some r =>
      gomail.SetHeader "Reply-To"
        [gomail.FormatAddress (EmailAddress.Email r) (EmailAddress.Name r)] m
  | None =>
      match MailSendBody.ReplyTo mailBody with
      | Some r =>
          gomail.SetHeader "Reply-To"
            [gomail.FormatAddress (EmailAddress.Email r) (EmailAddress.Name r)] m
      | None => m
      end
  end.

(** The loop over [p.Headers] (lines 181-183). *)
Definition setCustomHeaders (headers : StringMap) (m : gomail.Message) : gomail.Message :=
  fold_left (λ m kv, gomail.SetHeader (fst kv) [snd kv] m) headers m.

(** The loop over [mailBody.Content] (lines 185-187). *)
Definition setBodies (content : list ContentItem.t) (m : gomail.Message) : gomail.Message :=
  fold_left (λ m c, gomail.SetBody (ContentItem.Type_ c) (ContentItem.Value c) m) content m.

(** The loop over [mailBody.Attachments] (lines 189-198): the first content
    that does not decode ends it with the decoder's error. *)
Fixpoint attachAll (attachments : list Attachment.t) (m : gomail.Message)
  : gomail.Message + string :=
  match attachments with
  | [] => inl m
  | attachment :: rest =>
      match base64.DecodeString (Attachment.Content attachment) with
      | inr err => inr err
      | inl decodedContent =>
          attachAll rest (gomail.Attach (Attachment.Filename attachment) decodedContent m)
      end
  end.

(** The message of one personalization: the body of the loop of
    [sendEmails] up to the call of [DialAndSend] (lines 162-198). *)
Definition composeMessage (mailBody : MailSendBody.t) (p : Personalization.t)
  : gomail.Message + string :=
  let m := gomail.NewMessage in
  let m := gomail.SetHeader "From"
             [gomail.FormatAddress (EmailAddress.Email (MailSendBody.From mailBody))
                                   (EmailAddress.Name (MailSendBody.From mailBody))] m in
  let m := setAddressHeaders "To" (Personalization.To p) m in
  let m := setAddressHeaders "Cc" (Personalization.CC p) m in
  let m := setAddressHeaders "Bcc" (Personalization.BCC p) m in
  let m := gomail.SetHeader "Subject" [Personalization.Subject p] m in
  let m := setReplyTo mailBody p m in
  let m := setCustomHeaders (Personalization.Headers p) m in
  let m := setBodies (MailSendBody.Content mailBody) m in
  attachAll (MailSendBody.Attachments mailBody) m.

Context {Net : Type} {relay : Relay Net}.

(** The loop over [mailBody.Personalizations] (lines 161-203). *)
Fixpoint sendLoop (d : gomail.Dialer) (mailBody : MailSendBody.t)
         (ps : list Personalization.t) : M Net (option SendError) :=
  match ps with
  | [] => mret None
  | p :: rest =>
      match composeMessage mailBody p with
      | inr err => mret (Some (AttachmentDecode err))
      | inl m =>
          err ← DialAndSend d m;
          match err with
          | Some e => mret (Some (SendFailed e))
          | None => sendLoop d mailBody rest
          end
      end
  end.

(** The dialer [sendEmails] builds from the environment (lines 140-146);
    the error of [Atoi] is dropped. *)
Definition newDialer (env : gmap string string) : gomail.Dialer :=
  let smtpHost := Getenv env "SMTP_HOST" in
  let smtpUser := Getenv env "SMTP_USER" in
  let smtpPassword := Getenv env "SMTP_PASSWORD" in
  let smtpPort := fst (strconv.Atoi (Getenv env "SMTP_PORT")) in
  gomail.NewDialer smtpHost smtpPort smtpUser smtpPassword.

Definition sendEmails (env : gmap string string) (mailBody : MailSendBody.t)
  : M Net (option SendError) :=
  let smtpEncrypt := Getenv env "SMTP_ENCRYPT" in
  let d := newDialer env in
  match configureEncryption smtpEncrypt d with
  | inr err => mret (Some err)
  | inl d => sendLoop d mailBody (MailSendBody.Personalizations mailBody)
  end.

(** ** The handler (main.go, lines 106-137) *)

Definition handleSendEmail (env : gmap string string) (r : Request) : M Net Response :=
  if negb (String.eqb (Method r) "POST") then
    mret (http_Error "Method not allowed" StatusMethodNotAllowed)
  else
    match Decode r with
    | None => mret (http_Error "Invalid request body" StatusBadRequest)
    | Some mailBody =>
        let dryRun := String.eqb (Values_Get (Query r) "dry-run") "true" in
        if dryRun then
          let renderedMessages :=
            fill_indexed EmptyString (renderMessage mailBody)
                         (MailSendBody.Personalizations mailBody) in
          mret {| Status := StatusOK; Body := JSON [("data", renderedMessages)] |}
        else
          err ← sendEmails env mailBody;
          match err with
          | Some e => mret (http_Error (Error e) StatusInternalServerError)
          | None => mret {| Status := StatusAccepted; Body := NoBody |}
          end
    end.

End Compose.

(** ** Start of the process (main.go, lines 58-104) *)

(** [os.LookupEnv]: the value of a variable that is set, also when it is set
    to the empty string. The environment holds one value per variable name,
    and no name holds an equals sign, as the system and [os.Setenv] see to. *)
Definition LookupEnv (env : gmap string string) (key : string) : option string :=
  env !! key.

(** [os.Setenv]: refused for an empty name, a name that holds an equals sign
    or a NUL byte, and a value that holds a NUL byte; the callers here drop
    the error. *)
Definition Setenv_valid (key value : string) : bool :=
  negb (String.eqb key EmptyString)
  && forallb (λ c, negb (Ascii.eqb c "=") && negb (code c =? 0)) (chars key)
  && forallb (λ c, negb (code c =? 0)) (chars value).

Definition Setenv (key value : string) (env : gmap string string) : gmap string string :=
  if Setenv_valid key value then <[key := value]> env else env.

(** [godotenv.Load()] on what reading and parsing the file [.env] gives: the
    map of the file, or the text of the error. The variables that the
    environment already holds (as listed by [os.Environ] before the loop) are
    left as they are; the others are set. The error, if any, is returned. *)
Definition godotenv_Load (dotenv : gmap string string + string) (env : gmap string string)
  : option string * gmap string string :=
  match dotenv with
  | inr err => (Some err, env)
  | inl envMap =>
      (None,
       map_fold (λ key value acc,
                   match env !! key with
                   | Some _ => acc
                   | None => Setenv key value acc
                   end)
                env envMap)
  end.

Definition requiredVars : list string :=
  ["SMTP_HOST"; "SMTP_USER"; "SMTP_PASSWORD"; "SMTP_PORT"; "SMTP_ENCRYPT"].

(** The loops of [loadEnv] that collect the variables whose value is empty
    (lines 73-77 and 87-91): [append] on each one that is. *)
Definition collectMissing (env : gmap string string) (vars : list string) : list string :=
  fold_left (λ missing v,
               if String.eqb (Getenv env v) EmptyString then missing ++ [v] else missing)
            vars [].

(** [loadEnv]: the lines it logs, and the environment it leaves, or the
    message of [log.Fatalf], after which the process has exited. *)
Definition loadEnv (dotenv : gmap string string + string) (env : gmap string string)
  : list string * (gmap string string + string) :=
  let missingVars := collectMissing env requiredVars in
  if 0 <? Z.of_nat (length missingVars) then
    let '(err, env) := godotenv_Load dotenv env in
    let log := match err with
               | Some e => ["Error loading .env file: " +:+ e]
               | None => []
               end in
    let stillMissing := collectMissing env missingVars in
    if 0 <? Z.of_nat (length stillMissing) then
      (log, inr ("Missing required environment variables: " +:+ Join stillMissing ", "))
    else (log, inl env)
  else ([], inl env).

Definition getEnv (env : gmap string string) (key fallback : string) : string :=
  match LookupEnv env key with
  | Some value => value
  | None => fallback
  end.

(** [main] up to the call of [http.ListenAndServe]: the lines logged, and the
    environment and the address the server listens on, or the message of
    the fatal error of [loadEnv]. *)
Definition main (dotenv : gmap string string + string) (env : gmap string string)
  : list string * (gmap string string * string + string) :=
  match loadEnv dotenv env with
  | (log, inr fatal) => (log, inr fatal)
  | (log, inl env) =>
      let port := getEnv env "PORT" "8080" in
      (log ++ ["Server starting on port " +:+ port], inl (env, ":" +:+ port))
  end.

(** ** The vocabulary of the lines of a rendered text *)

(** A text that stays on one line: it holds no line feed and no carriage
    return. *)
Definition oneLine (s : string) : bool :=
  forallb (λ c, negb (code c =? 10) && negb (code c =? 13)) (chars s).

(** A text without a colon. *)
Definition noColon (s : string) : bool := forallb (λ c, negb (Ascii.eqb c ":")) (chars s).

(** The name of a header line: what stands before its first colon. *)
Fixpoint headerName (l : string) : string :=
  match l with
  | EmptyString => EmptyString
  | String c rest => if Ascii.eqb c ":" then EmptyString else String c (headerName rest)
  end.

(** Header names are compared without regard to the case of their letters. *)
Definition lower (c : ascii) : ascii :=
  if (65 <=? code c) && (code c <=? 90) then ascii_of_N (N_of_ascii c + 32) else c.

Fixpoint lowered (s : string) : string :=
  match s with
  | EmptyString => EmptyString
  | String c rest => String (lower c) (lowered rest)
  end.

Definition sameName (a b : string) : bool := String.eqb (lowered a) (lowered b).

(** A line that is a [Reply-To] header. *)
Definition namesReplyTo (l : string) : bool := sameName (headerName l) "Reply-To".

(** The lines of a text: what stands between its line feeds. *)
Fixpoint textLines (s : string) : list string :=
  match s with
  | EmptyString => [EmptyString]
  | String c rest =>
      if code c =? 10 then EmptyString :: textLines rest
      else match textLines rest with
           | l :: ls => String c l :: ls
           | [] => [String c EmptyString]
           end
  end.

(** The header block of a text: its lines before the first empty line. *)
Fixpoint headerBlock (ls : list string) : list string :=
  match ls with
  | [] => []
  | EmptyString :: _ => []
  | l :: rest => l :: headerBlock rest
  end.

(** A line and what follows it. *)
Definition line (content rest : string) : string := content +:+ LF +:+ rest.

Definition plainAddress (a : EmailAddress.t) : bool :=
  oneLine (EmailAddress.Name a) && oneLine (EmailAddress.Email a).

(** A custom header that takes one line, and whose name holds no colon and
    is not [Reply-To], in whatever case. *)
Definition plainHeader (kv : string * string) : bool :=
  oneLine (fst kv) && oneLine (snd kv) && noColon (fst kv)
  && negb (sameName (fst kv) "Reply-To").

(** The header lines the renderer writes for an address list. *)
Definition addressLines (label : string) (addresses : list EmailAddress.t) : list string :=
  match addresses with
  | [] => []
  | _ => [label +:+ Join (sprintf_address <$> addresses) ", "]
  end.

(** The [Reply-To] line of an address. *)
Definition replyToLine (r : EmailAddress.t) : string :=
  "Reply-To: " +:+ EmailAddress.Name r +:+ " <" +:+ EmailAddress.Email r +:+ ">".

(** ** The vocabulary of the properties *)

(** The pieces a loop writes to the builder, as one string. *)
Definition pieces {A : Type} (f : A → string) (xs : list A) : string :=
  fold_right (λ x rest, f x +:+ rest) EmptyString xs.

Definition fromLine (mailBody : MailSendBody.t) : string :=
  "From: " +:+ EmailAddress.Name (MailSendBody.From mailBody)
    +:+ " <" +:+ EmailAddress.Email (MailSendBody.From mailBody) +:+ ">" +:+ LF.

(** The line of an address list: the label and one entry per address, in
    order, joined by a comma and a space. *)
Definition addressLine (label : string) (addresses : list EmailAddress.t) : string :=
  label +:+ Join (sprintf_address <$> addresses) ", " +:+ LF.

(** The [CC] and [BCC] lines are left out for an empty list. *)
Definition optionalLine (label : string) (addresses : list EmailAddress.t) : string :=
  match addresses with
  | [] => EmptyString
  | _ => addressLine label addresses
  end.

Definition subjectLine (p : Personalization.t) : string :=
  "Subject: " +:+ Personalization.Subject p +:+ LF.

(** The body of the rendering: every content item in the order of the array,
    each after its own [Content-Type] marker. *)
Definition renderedBody (mailBody : MailSendBody.t) : string :=
  pieces renderContent (MailSendBody.Content mailBody).

(** The address that answers are to go to: the one of the personalization
    when it has one, else the one of the request, else none. *)
Definition replyToOf (mailBody : MailSendBody.t) (p : Personalization.t)
  : option EmailAddress.t :=
  match Personalization.ReplyTo p with
  | Some r => Some r
  | None => MailSendBody.ReplyTo mailBody
  end.

(** No field of the header of the rendered text holds a line feed, and the
    custom headers are plain. *)
Definition plainHeaders (mailBody : MailSendBody.t) (p : Personalization.t) : Prop :=
  plainAddress (MailSendBody.From mailBody) = true
  ∧ forallb plainAddress (Personalization.To p) = true
  ∧ forallb plainAddress (Personalization.CC p) = true
  ∧ forallb plainAddress (Personalization.BCC p) = true
  ∧ oneLine (Personalization.Subject p) = true
  ∧ from_option plainAddress true (replyToOf mailBody p) = true
  ∧ forallb plainHeader (Personalization.Headers p) = true.

(** The header lines of the rendered text. *)
Definition headerLines (mailBody : MailSendBody.t) (p : Personalization.t) : list string :=
  ["From: " +:+ EmailAddress.Name (MailSendBody.From mailBody)
     +:+ " <" +:+ EmailAddress.Email (MailSendBody.From mailBody) +:+ ">";
   "To: " +:+ Join (sprintf_address <$> Personalization.To p) ", "]
  ++ addressLines "CC: " (Personalization.CC p)
  ++ addressLines "BCC: " (Personalization.BCC p)
  ++ ["Subject: " +:+ Personalization.Subject p]
  ++ option_list (replyToLine <$> replyToOf mailBody p)
  ++ ((λ kv, fst kv +:+ ": " +:+ snd kv) <$> Personalization.Headers p).

(** The three ways a call of [DialAndSend] ends. *)
Inductive Outcome : Type :=
  | Delivered
  | DialFailed (e : string)
  | SendRefused (e : string).

(** The events of one call that ends in the given way. *)
Definition attempt (d : gomail.Dialer) (m : gomail.Message) (o : Outcome) : list Event :=
  match o with
  | Delivered => [EvDial d None; EvSend m None; EvClose]
  | DialFailed e => [EvDial d (Some e)]
  | SendRefused e => [EvDial d None; EvSend m (Some e); EvClose]
  end.

(** The error the call returns. *)
Definition outcome_error (o : Outcome) : option string :=
  match o with
  | Delivered => None
  | DialFailed e => Some e
  | SendRefused e => Some ("gomail: could not send email 1: " +:+ e)
  end.

(** The events of a run of deliveries, one message after the other. *)
Definition deliveries (d : gomail.Dialer) (ms : list gomail.Message) : list Event :=
  concat ((λ m, attempt d m Delivered) <$> ms).

Definition is_dial (e : Event) : bool :=
  match e with EvDial _ _ => true | _ => false end.

(** The number of connections dialled in a list of events. *)
Definition dials (es : list Event) : nat := length (filter is_dial es).


Section Runs.
Context {enc : gomail.WordEncoder} {Net : Type} {relay : Relay Net}.

(** The messages of a list of personalizations, all composed. *)
Definition composed (mailBody : MailSendBody.t)
           (ps : list Personalization.t) (ms : list gomail.Message) : Prop :=
  Forall2 (λ p m, composeMessage mailBody p = inl m) ps ms.

(** A request the handler takes to [sendEmails]: a POST whose body decodes
    and whose [dry-run] parameter is not the string [true]. *)
Definition sends (r : Request) (mailBody : MailSendBody.t) : Prop :=
  Method r = "POST" ∧ Decode r = Some mailBody
  ∧ Values_Get (Query r) "dry-run" ≠ "true".

(** The messages are delivered one after the other, from the state [w] of
    the world to the state [w1]. *)
Fixpoint all_delivered (d : gomail.Dialer) (ms : list gomail.Message)
         (w w1 : World Net) : Prop :=
  match ms with
  | [] => w1 = w
  | m :: rest => ∃ w2, DialAndSend d m w = (None, w2) ∧ all_delivered d rest w2 w1
  end.

(** The send fails on the personalization numbered [k] (from 1): the loop has
    delivered the messages of the [k-1] personalizations before it, and the
    call of [DialAndSend] for its message returns the error [e]. *)
Definition send_fails_at (d : gomail.Dialer) (mailBody : MailSendBody.t) (k : nat)
           (w : World Net) (e : string) (w' : World Net) : Prop :=
  ∃ ps1 p ps2 ms m w1,
    MailSendBody.Personalizations mailBody = ps1 ++ p :: ps2
    ∧ k = S (length ps1)
    ∧ composed mailBody ps1 ms ∧ all_delivered d ms w w1
    ∧ composeMessage mailBody p = inl m
    ∧ DialAndSend d m w1 = (Some e, w').

End Runs.

(** ** Concrete relays and requests *)

Module Examples.

(** The examples use printable ASCII only: no word reaches the encoders. *)
#[local] Instance asciiOnly : gomail.WordEncoder :=
  {| gomail.QEncodeWord := λ s, s; gomail.BEncodeWord := λ s, s |}.

(** A relay that accepts every connection and every message. *)
Definition accepting : Relay unit :=
  {| net_dial := λ _ n, (None, n); net_send := λ _ n, (None, n); net_close := λ n, n |}.

(** A relay that counts the messages it was given and refuses the one
    numbered [k] (from 1). *)
Definition refusing (k : nat) : Relay nat :=
  {| net_dial := λ _ n, (None, n);
     net_send := λ _ n, (if Nat.eqb (S n) k then Some "554 rejected" else None, S n);
     net_close := λ n, n |}.

(** A relay that cannot be reached. *)
Definition unreachable : Relay unit :=
  {| net_dial := λ _ n, (Some "dial tcp: connection refused", n);
     net_send := λ _ n, (None, n); net_close := λ n, n |}.

Definition addr (name email : string) : EmailAddress.t :=
  {| EmailAddress.Name := name; EmailAddress.Email := email |}.

Definition person (to : list EmailAddress.t) (subject : string) (headers : StringMap)
           (replyTo : option EmailAddress.t) : Personalization.t :=
  {| Personalization.To := to; Personalization.CC := []; Personalization.BCC := [];
     Personalization.Subject := subject; Personalization.Headers := headers;
     Personalization.DKIMDomain := EmptyString; Personalization.DKIMPrivateKey := EmptyString;
     Personalization.DKIMSelector := EmptyString; Personalization.ReplyTo := replyTo;
     Personalization.From := addr EmptyString EmptyString |}.

Definition body (ps : list Personalization.t) (content : list ContentItem.t)
           (attachments : list Attachment.t) (replyTo : option EmailAddress.t)
  : MailSendBody.t :=
  {| MailSendBody.Headers := []; MailSendBody.Personalizations := ps;
     MailSendBody.Attachments := attachments; MailSendBody.ReplyTo := replyTo;
     MailSendBody.Subject := EmptyString; MailSendBody.From := addr "A" "a@x.com";
     MailSendBody.MailFrom := None; MailSendBody.Content := content |}.

Definition text (value : string) : ContentItem.t :=
  {| ContentItem.Type_ := "text/plain"; ContentItem.Value := value |}.
Definition html (value : string) : ContentItem.t :=
  {| ContentItem.Type_ := "text/html"; ContentItem.Value := value |}.

Definition env (port encrypt : string) : gmap string string :=
  <["SMTP_HOST" := "smtp.x.com"]> (<["SMTP_USER" := "u"]> (<["SMTP_PASSWORD" := "pw"]>
    (<["SMTP_PORT" := port]> (<["SMTP_ENCRYPT" := encrypt]> ∅)))).

Definition post (dryRun : list string) (mailBody : option MailSendBody.t) : Request :=
  {| Method := "POST"; Query := <["dry-run" := dryRun]> ∅; Decode := mailBody |}.

Definition start {Net : Type} (n : Net) : World Net := {| net := n; trace := [] |}.

Definition hello : Personalization.t := person [addr "B" "b@y.com"] "Hello" [] None.
Definition two : Personalization.t :=
  person [addr "B" "b@y.com"; addr EmptyString "c@z.com"] "Two" [("X-Tag", "t")] None.
(** One recipient without a name. *)
Definition nameless : Personalization.t :=
  person [addr EmptyString "c@z.com"] "Hi" [] None.
(** An address to answer to, and a custom header of the same name. *)
Definition overridden : Personalization.t :=
  person [addr "B" "b@y.com"] "Hi" [("Reply-To", "other@z.com")]
         (Some (addr "R" "r@p.com")).
(** A custom header [Reply-To] and no address to answer to. *)
Definition custom_only : Personalization.t :=
  person [addr "B" "b@y.com"] "Hi" [("Reply-To", "other@z.com")] None.
Definition answered : Personalization.t :=
  person [addr "B" "b@y.com"] "Hi" [("X-Tag", "t")] (Some (addr "R" "r@p.com")).

Definition plain_and_html : list ContentItem.t := [text "hi"; html "<b>hi</b>"].

Definition broken : Attachment.t :=
  {| Attachment.Filename := "a.bin"; Attachment.Type_ := "application/octet-stream";
     Attachment.Content := "!!!" |}.

(** Three personalizations, sent through a relay that refuses the second
    message. *)
Definition three : MailSendBody.t := body [hello; two; hello] [text "hi"] [] None.

Definition tls : gomail.Dialer :=
  gomail.set_TLSConfig None
    (gomail.set_SSL false (gomail.NewDialer "smtp.x.com" 587 "u" "pw")).

(** The composed message, for a request whose attachments decode. *)
Definition message (mailBody : MailSendBody.t) (p : Personalization.t) : gomail.Message :=
  match composeMessage mailBody p with
  | inl m => m
  | inr _ => gomail.NewMessage
  end.

Definition after_first : World nat :=
  snd (DialAndSend (relay := refusing 2) tls (message three hello) (start 0%nat)).
Definition after_second : World nat :=
  snd (DialAndSend (relay := refusing 2) tls (message three two) after_first).

End Examples.

(** ** The vocabulary of the properties of the start *)

(** The required variables whose value is empty in an environment. *)
Definition missingIn (env : gmap string string) : list string :=
  List.filter (λ v, String.eqb (Getenv env v) EmptyString) requiredVars.

(** The environment after [godotenv.Load]. *)
Definition loaded (dotenv : gmap string string + string) (env : gmap string string)
  : gmap string string :=
  snd (godotenv_Load dotenv env).

(** The value the file gives to a variable, when [loadEnv] reads the file:
    some required variable is empty, the file parses, and [os.Setenv] takes
    the value. *)
Definition fromFile (dotenv : gmap string string + string) (env : gmap string string)
           (key : string) : option string :=
  match missingIn env, dotenv with
  | _ :: _, inl envMap =>
      match envMap !! key with
      | Some value => if Setenv_valid key value then Some value else None
      | None => None
      end
  | _, _ => None
  end.

Module Startup.

(** An environment that holds the five required variables. *)
Definition complete : gmap string string :=
  <["SMTP_HOST" := "smtp.x.com"]> (<["SMTP_USER" := "u"]> (<["SMTP_PASSWORD" := "pw"]>
    (<["SMTP_PORT" := "587"]> (<["SMTP_ENCRYPT" := "TLS"]> ∅)))).

(** An environment without password and port. *)
Definition partial : gmap string string :=
  <["SMTP_HOST" := "smtp.x.com"]> (<["SMTP_USER" := "u"]> (<["SMTP_ENCRYPT" := "TLS"]> ∅)).

(** A password exported with the empty value. *)
Definition blank_password : gmap string string :=
  <["SMTP_PASSWORD" := EmptyString]> partial.

(** A file with a host, a password, a port and a listening port. *)
Definition file : gmap string string :=
  <["SMTP_HOST" := "other.x.com"]> (<["SMTP_PASSWORD" := "secret"]>
    (<["SMTP_PORT" := "465"]> (<["PORT" := "9090"]> ∅))).

(** A file with a password only. *)
Definition short_file : gmap string string := <["SMTP_PASSWORD" := "secret"]> ∅.

End Startup.

(** ** The vocabulary of the properties of messages and runs *)

(** Two requests with the same sender, address to answer to, content and
    attachments: they may differ in the request-level headers and subject
    and in [mailfrom]. *)
Definition same_mail (mailBody mailBody' : MailSendBody.t) : Prop :=
  MailSendBody.From mailBody = MailSendBody.From mailBody'
  ∧ MailSendBody.ReplyTo mailBody = MailSendBody.ReplyTo mailBody'
  ∧ MailSendBody.Content mailBody = MailSendBody.Content mailBody'
  ∧ MailSendBody.Attachments mailBody = MailSendBody.Attachments mailBody'.

(** Two personalizations with the same recipients, subject, headers and
    address to answer to: they may differ in the DKIM fields and in [from]. *)
Definition same_recipient (p p' : Personalization.t) : Prop :=
  Personalization.To p = Personalization.To p'
  ∧ Personalization.CC p = Personalization.CC p'
  ∧ Personalization.BCC p = Personalization.BCC p'
  ∧ Personalization.Subject p = Personalization.Subject p'
  ∧ Personalization.Headers p = Personalization.Headers p'
  ∧ Personalization.ReplyTo p = Personalization.ReplyTo p'.

(** The messages handed to [gomail.Send], in the order of the calls. *)
Definition handed (es : list Event) : list gomail.Message :=
  omap (λ e, match e with EvSend m _ => Some m | _ => None end) es.

(** A relay whose state tells how many connections it has accepted: a dial
    that succeeds is one more connection, and nothing the client does takes
    a connection back. A send may add connections, as [gomail.Send] dials
    again when the relay drops the connection at [MAIL]. *)
Class CountsConnections (Net : Type) {relay : Relay Net} : Type := {
  connections : Net → nat;
  dial_connects : ∀ d n n',
    net_dial d n = (None, n') → (connections n + 1 ≤ connections n')%nat;
  dial_keeps : ∀ d n e n',
    net_dial d n = (Some e, n') → (connections n ≤ connections n')%nat;
  send_keeps : ∀ m n err n',
    net_send m n = (err, n') → (connections n ≤ connections n')%nat;
  close_keeps : ∀ n, (connections n ≤ connections (net_close n))%nat
}.

(** The file the message carries for an attachment of the request. *)
Definition attached (a : Attachment.t) (f : gomail.file) : Prop :=
  gomail.Name f = filepath.Base (Attachment.Filename a)
  ∧ gomail.Header f = ∅
  ∧ base64.DecodeString (Attachment.Content a) = inl (gomail.CopyFunc f).

Definition decodes (a : Attachment.t) : Prop :=
  ∃ bytes, base64.DecodeString (Attachment.Content a) = inl bytes.

(** The first attachment that does not decode, and the error of the decoder. *)
Definition first_undecodable (attachments : list Attachment.t) (e : string) : Prop :=
  ∃ before a after,
    attachments = before ++ a :: after
    ∧ Forall decodes before
    ∧ base64.DecodeString (Attachment.Content a) = inr e.

(** The number a string of decimal digits writes. *)
Definition decimal (s : string) : Z :=
  fold_left (λ n c, n * 10 + (code c - code "0")) (chars s) 0.

Definition digit (c : ascii) : bool := (code "0" <=? code c) && (code c <=? code "9").

(** The entry [FormatAddress] and [SetHeader] make of an address. *)
Definition addressEntry {enc : gomail.WordEncoder} (a : EmailAddress.t) : list string :=
  [gomail.encodeString
     (gomail.FormatAddress (EmailAddress.Email a) (EmailAddress.Name a))].

Module More.

(** The second personalization of [Examples.three] with DKIM fields and a
    sender of its own. *)
Definition two_signed : Personalization.t :=
  {| Personalization.To := Personalization.To Examples.two;
     Personalization.CC := []; Personalization.BCC := [];
     Personalization.Subject := "Two"; Personalization.Headers := [("X-Tag", "t")];
     Personalization.DKIMDomain := "x.com"; Personalization.DKIMPrivateKey := "key";
     Personalization.DKIMSelector := "sel"; Personalization.ReplyTo := None;
     Personalization.From := Examples.addr "Z" "z@x.com" |}.

(** [Examples.three] with request-level headers, subject and [mailfrom], and
    with [two_signed] for its second personalization. *)
Definition three_decorated : MailSendBody.t :=
  {| MailSendBody.Headers := [("X-Request", "r")];
     MailSendBody.Personalizations := [Examples.hello; two_signed; Examples.hello];
     MailSendBody.Attachments := []; MailSendBody.ReplyTo := None;
     MailSendBody.Subject := "unused"; MailSendBody.From := Examples.addr "A" "a@x.com";
     MailSendBody.MailFrom := Some (Examples.addr "M" "bounce@x.com");
     MailSendBody.Content := [Examples.text "hi"] |}.

Definition sound : Attachment.t :=
  {| Attachment.Filename := "docs/hello.txt"; Attachment.Type_ := "text/plain";
     Attachment.Content := "aGVsbG8=" |}.

(** Copies, a hidden copy and custom headers, one of them for the subject. *)
Definition copied : Personalization.t :=
  {| Personalization.To := [Examples.addr "B" "b@y.com"; Examples.addr "C" "c@y.com"];
     Personalization.CC := [Examples.addr "D" "d@y.com"]; Personalization.BCC := [];
     Personalization.Subject := "Hi";
     Personalization.Headers := [("X-Tag", "t"); ("Subject", "Other")];
     Personalization.DKIMDomain := EmptyString; Personalization.DKIMPrivateKey := EmptyString;
     Personalization.DKIMSelector := EmptyString; Personalization.ReplyTo := None;
     Personalization.From := Examples.addr EmptyString EmptyString |}.

Definition with_files : MailSendBody.t :=
  Examples.body [copied] [Examples.text "hi"] [sound; Examples.broken; sound] None.

Definition with_file : MailSendBody.t :=
  Examples.body [copied] [Examples.text "hi"] [sound] None.

(** A relay that drops every connection at [MAIL]: each send goes through
    on the connection the sender dials again. The state is the number of
    connections accepted. *)
Definition reconnecting : Relay nat :=
  {| net_dial := λ _ n, (None, S n);
     net_send := λ _ n, (None, S n);
     net_close := λ n, n |}.

Definition reconnecting_counts : CountsConnections nat (relay := reconnecting).
Proof.
  refine {| connections := λ n, n |}.
  - intros d n n' [= <-]. lia.
  - intros d n e n' [=].
  - intros m n err n' [= _ <-]. lia.
  - intros n. cbn. lia.
Defined.

(** The world after [Examples.three] went through a relay that accepts
    everything. *)
Definition all_sent : World unit :=
  snd (sendEmails (enc := Examples.asciiOnly) (relay := Examples.accepting)
         (Examples.env "587" "TLS") Examples.three (Examples.start tt)).

End More.

(** * Properties *)

(** ** Lists and strings *)

Lemma append_cons (x : ascii) (a b : string) : String x a +:+ b = String x (a +:+ b).
Proof. reflexivity. Qed.

Lemma append_empty_l (a : string) : EmptyString +:+ a = a.
Proof. reflexivity. Qed.

Lemma append_assoc (a b c : string) : (a +:+ b) +:+ c = a +:+ (b +:+ c).
Proof.
  induction a as [|x a IH]; [reflexivity|].
  rewrite !append_cons. f_equal. exact IH.
Qed.

Lemma append_empty_r (a : string) : a +:+ EmptyString = a.
Proof.
  induction a as [|x a IH]; [reflexivity|].
  rewrite append_cons. f_equal. exact IH.
Qed.

(** Writing a slice index by index fills it with the images, in order. *)
Lemma fill_indexed_from {A B : Type} (zero : B) (f : A → B) (xs : list A) (pre : list B) :
  fold_left (λ out ix, <[ fst ix := f (snd ix) ]> out)
            (imap (λ i x, (List.length pre + i, x)%nat) xs)
            (pre ++ replicate (List.length xs) zero)
  = pre ++ (f <$> xs).
Proof.
  revert pre. induction xs as [|x xs IH]; intros pre; [reflexivity|].
  rewrite imap_cons. cbn [fold_left fst snd length replicate fmap list_fmap].
  rewrite insert_app_r. cbn [insert list_insert].
  specialize (IH (pre ++ [f x])).
  rewrite <- !app_assoc in IH. cbn [app] in IH.
  rewrite <- IH. f_equal.
  apply imap_ext. intros i y _. cbn. rewrite length_app. cbn. f_equal. lia.
Qed.

Lemma fill_indexed_fmap {A B : Type} (zero : B) (f : A → B) (xs : list A) :
  fill_indexed zero f xs = f <$> xs.
Proof. exact (fill_indexed_from zero f xs []). Qed.

Lemma writeAll_pieces {A : Type} (f : A → string) (xs : list A) (sb : string) :
  writeAll f xs sb = sb +:+ pieces f xs.
Proof.
  unfold writeAll. revert sb. induction xs as [|x xs IH]; intros sb; cbn.
  - now rewrite append_empty_r.
  - rewrite IH. apply append_assoc.
Qed.

(** ** What one call of [DialAndSend] leaves in the trace *)

Lemma dials_app (es1 es2 : list Event) : dials (es1 ++ es2) = (dials es1 + dials es2)%nat.
Proof. unfold dials. now rewrite filter_app, length_app. Qed.

Section SendProperties.
Context {enc : gomail.WordEncoder} {Net : Type} {relay : Relay Net}.

Lemma DialAndSend_outcome (d : gomail.Dialer) (m : gomail.Message) (w : World Net) :
  ∃ o w', DialAndSend d m w = (outcome_error o, w')
          ∧ trace w' = trace w ++ attempt d m o.
Proof.
  unfold DialAndSend, mbind, M_bind, mret, M_ret, Dial, Send, Close.
  destruct (net_dial d (net w)) as [[e|] n] eqn:Hdial.
  - exists (DialFailed e). eexists. split; [reflexivity|]. reflexivity.
  - cbn [net trace].
    destruct (net_send m n) as [[e|] n'] eqn:Hsend.
    + exists (SendRefused e). eexists. split; [reflexivity|].
      cbn [trace attempt]. now rewrite <- !app_assoc.
    + exists Delivered. eexists. split; [reflexivity|].
      cbn [trace attempt]. now rewrite <- !app_assoc.
Qed.

(** Whether the attachments decode does not depend on the message they are
    attached to, hence not on the personalization. *)
Lemma attachAll_error (attachments : list Attachment.t) (m m' : gomail.Message) (e : string) :
  attachAll attachments m = inr e → attachAll attachments m' = inr e.
Proof.
  revert m m'. induction attachments as [|a rest IH]; intros m m' H; cbn in *.
  - discriminate.
  - destruct (base64.DecodeString (Attachment.Content a)); [eauto | exact H].
Qed.

Lemma composeMessage_error (mailBody : MailSendBody.t) (p p' : Personalization.t) (e : string) :
  composeMessage mailBody p = inr e → composeMessage mailBody p' = inr e.
Proof. unfold composeMessage. apply attachAll_error. Qed.

(** An attachment that does not decode makes every composition fail. *)
Lemma attachAll_bad (attachments : list Attachment.t) (m : gomail.Message) :
  (∃ a e, a ∈ attachments ∧ base64.DecodeString (Attachment.Content a) = inr e) →
  ∃ e, attachAll attachments m = inr e.
Proof.
  revert m. induction attachments as [|a rest IH]; intros m (b & e & Hin & Hbad).
  - inversion Hin.
  - cbn. destruct (base64.DecodeString (Attachment.Content a)) as [bytes|e'] eqn:Ha.
    + apply IH. exists b, e. split; [|exact Hbad].
      apply elem_of_cons in Hin as [-> | Hin]; [congruence | exact Hin].
    + eauto.
Qed.

(** What a run of the loop returns and leaves in the trace. *)
Lemma sendLoop_spec (d : gomail.Dialer) (mailBody : MailSendBody.t)
      (ps : list Personalization.t) (w w' : World Net) (r : option SendError) :
  sendLoop d mailBody ps w = (r, w') →
  match r with
  | None =>
      ∃ ms, composed mailBody ps ms ∧ trace w' = trace w ++ deliveries d ms
  | Some (SendFailed e) =>
      ∃ ps1 p ps2 ms m o,
        ps = ps1 ++ p :: ps2 ∧ composed mailBody ps1 ms
        ∧ composeMessage mailBody p = inl m
        ∧ outcome_error o = Some e
        ∧ trace w' = trace w ++ deliveries d ms ++ attempt d m o
  | Some (AttachmentDecode e) =>
      ps ≠ [] ∧ w' = w ∧ ∀ p, composeMessage mailBody p = inr e
  | Some (InvalidEncrypt _) => False
  end.
Proof.
  revert w. induction ps as [|p rest IH]; intros w H.
  - cbn in H. injection H as <- <-. exists []. split; [constructor|].
    cbn. now rewrite app_nil_r.
  - cbn [sendLoop] in H.
    destruct (composeMessage mailBody p) as [m|e] eqn:Hm.
    + unfold mbind, M_bind in H.
      destruct (DialAndSend_outcome d m w) as (o & w1 & Hrun & Htr).
      rewrite Hrun in H.
      destruct (outcome_error o) as [e|] eqn:Ho.
      * injection H as <- <-.
        exists [], p, rest, [], m, o. repeat split; try assumption; constructor.
      * apply IH in H. destruct r as [[v|e|e]|].
        -- exact H.
        -- destruct H as (_ & _ & Hall). specialize (Hall p). congruence.
        -- destruct H as (ps1 & q & ps2 & ms & mq & oq & -> & Hms & Hq & Hoq & Htr').
           exists (p :: ps1), q, ps2, (m :: ms), mq, oq.
           repeat split; try assumption; [constructor; assumption|].
           rewrite Htr', Htr. destruct o; try discriminate.
           unfold deliveries. cbn [fmap list_fmap concat].
           now rewrite <- !app_assoc.
        -- destruct H as (ms & Hms & Htr').
           exists (m :: ms). split; [constructor; assumption|].
           rewrite Htr', Htr. destruct o; try discriminate.
           unfold deliveries. cbn [fmap list_fmap concat].
           now rewrite <- !app_assoc.
    + injection H as <- <-. repeat split; [discriminate|].
      intros q. now apply (composeMessage_error mailBody p).
Qed.

(** The loop returns: with a result for every state of the relay. *)
Lemma configureEncryption_valid (smtpEncrypt : string) (d : gomail.Dialer) :
  smtpEncrypt = "SSL" ∨ smtpEncrypt = "TLS" ∨ smtpEncrypt = "PLAIN" →
  ∃ d', configureEncryption smtpEncrypt d = inl d' ∧ gomail.Port d' = gomail.Port d
        ∧ gomail.Host d' = gomail.Host d.
Proof.
  intros [-> | [-> | ->]]; eexists; (split; [reflexivity|]); split; reflexivity.
Qed.

Lemma configureEncryption_invalid (smtpEncrypt : string) (d : gomail.Dialer) :
  smtpEncrypt ≠ "SSL" → smtpEncrypt ≠ "TLS" → smtpEncrypt ≠ "PLAIN" →
  configureEncryption smtpEncrypt d = inr (InvalidEncrypt smtpEncrypt).
Proof.
  intros H1 H2 H3. unfold configureEncryption.
  apply String.eqb_neq in H1, H2, H3. now rewrite H1, H2, H3.
Qed.


End SendProperties.

(** ** What the composition loops leave in the message *)

Section MessageProperties.
Context {enc : gomail.WordEncoder}.

Lemma SetHeader_lookup (field key : string) (value : list string) (m : gomail.Message) :
  gomail.header (gomail.SetHeader field value m) !! key
  = if decide (field = key) then Some (gomail.encodeString <$> value)
    else gomail.header m !! key.
Proof. unfold gomail.SetHeader. cbn [gomail.header]. apply lookup_insert. Qed.

(** The loop over an address list overwrites the field at every address:
    the field ends with the last address alone. *)
Lemma setAddressHeaders_lookup (field key : string) (addresses : list EmailAddress.t)
      (m : gomail.Message) :
  gomail.header (setAddressHeaders field addresses m) !! key
  = match last addresses with
    | Some a =>
        if decide (field = key)
        then Some [gomail.encodeString
                     (gomail.FormatAddress (EmailAddress.Email a) (EmailAddress.Name a))]
        else gomail.header m !! key
    | None => gomail.header m !! key
    end.
Proof.
  unfold setAddressHeaders. revert m.
  induction addresses as [|a rest IH]; intros m; [reflexivity|].
  cbn [fold_left]. rewrite IH. destruct rest as [|b rest'].
  - cbn [last]. rewrite SetHeader_lookup. reflexivity.
  - rewrite last_cons_cons. destruct (last (b :: rest')) as [c|] eqn:Hlast.
    + rewrite SetHeader_lookup. destruct (decide (field = key)); reflexivity.
    + apply last_None in Hlast. discriminate.
Qed.

Lemma setCustomHeaders_lookup (headers : StringMap) (key : string) (m : gomail.Message) :
  key ∉ headers.*1 →
  gomail.header (setCustomHeaders headers m) !! key = gomail.header m !! key.
Proof.
  unfold setCustomHeaders. revert m.
  induction headers as [|[k v] rest IH]; intros m Hkey; [reflexivity|].
  cbn [fold_left fst snd]. cbn in Hkey. apply not_elem_of_cons in Hkey as [Hk Hrest].
  rewrite IH by assumption. rewrite SetHeader_lookup.
  destruct (decide (k = key)); [congruence | reflexivity].
Qed.

Lemma setReplyTo_lookup (mailBody : MailSendBody.t) (p : Personalization.t)
      (key : string) (m : gomail.Message) :
  key ≠ "Reply-To" →
  gomail.header (setReplyTo mailBody p m) !! key = gomail.header m !! key.
Proof.
  intros Hkey. unfold setReplyTo.
  destruct (Personalization.ReplyTo p); [|destruct (MailSendBody.ReplyTo mailBody)];
    try reflexivity;
    rewrite SetHeader_lookup; (destruct (decide ("Reply-To" = key)); [congruence | reflexivity]).
Qed.

Lemma setBodies_header (content : list ContentItem.t) (m : gomail.Message) :
  gomail.header (setBodies content m) = gomail.header m.
Proof.
  unfold setBodies. revert m. induction content as [|c rest IH]; intros m; [reflexivity|].
  cbn [fold_left]. now rewrite IH.
Qed.

(** The loop over the content items replaces the body at every item: the
    message ends with the last item as its only part. *)
Lemma setBodies_parts (content : list ContentItem.t) (m : gomail.Message) :
  gomail.parts (setBodies content m)
  = match last content with
    | Some c => [ {| gomail.contentType := ContentItem.Type_ c;
                     gomail.copier := ContentItem.Value c |} ]
    | None => gomail.parts m
    end.
Proof.
  unfold setBodies. revert m. induction content as [|c rest IH]; intros m; [reflexivity|].
  cbn [fold_left]. rewrite IH. destruct rest as [|c' rest']; [reflexivity|].
  rewrite last_cons_cons. destruct (last (c' :: rest')) eqn:Hlast; [reflexivity|].
  apply last_None in Hlast. discriminate.
Qed.

Lemma attachAll_keeps (attachments : list Attachment.t) (m m' : gomail.Message) :
  attachAll attachments m = inl m' →
  gomail.header m' = gomail.header m ∧ gomail.parts m' = gomail.parts m.
Proof.
  revert m. induction attachments as [|a rest IH]; intros m H; cbn in H.
  - injection H as <-. split; reflexivity.
  - destruct (base64.DecodeString (Attachment.Content a)); [|discriminate].
    apply IH in H. exact H.
Qed.

Lemma setAddressHeaders_parts (field : string) (addresses : list EmailAddress.t)
      (m : gomail.Message) :
  gomail.parts (setAddressHeaders field addresses m) = gomail.parts m.
Proof.
  unfold setAddressHeaders. revert m.
  induction addresses as [|a rest IH]; intros m; [reflexivity|].
  cbn [fold_left]. now rewrite IH.
Qed.

Lemma setCustomHeaders_parts (headers : StringMap) (m : gomail.Message) :
  gomail.parts (setCustomHeaders headers m) = gomail.parts m.
Proof.
  unfold setCustomHeaders. revert m.
  induction headers as [|kv rest IH]; intros m; [reflexivity|].
  cbn [fold_left]. now rewrite IH.
Qed.

Lemma setReplyTo_parts (mailBody : MailSendBody.t) (p : Personalization.t)
      (m : gomail.Message) :
  gomail.parts (setReplyTo mailBody p m) = gomail.parts m.
Proof.
  unfold setReplyTo.
  destruct (Personalization.ReplyTo p); [|destruct (MailSendBody.ReplyTo mailBody)];
    reflexivity.
Qed.

(** The body of the composed message. *)
Lemma composeMessage_parts (mailBody : MailSendBody.t) (p : Personalization.t)
      (m : gomail.Message) :
  composeMessage mailBody p = inl m →
  gomail.parts m
  = match last (MailSendBody.Content mailBody) with
    | Some c => [ {| gomail.contentType := ContentItem.Type_ c;
                     gomail.copier := ContentItem.Value c |} ]
    | None => []
    end.
Proof.
  unfold composeMessage. intros H. apply attachAll_keeps in H as [_ ->].
  rewrite setBodies_parts. destruct (last (MailSendBody.Content mailBody)); [reflexivity|].
  rewrite setCustomHeaders_parts, setReplyTo_parts. cbn [gomail.SetHeader gomail.parts].
  rewrite !setAddressHeaders_parts. reflexivity.
Qed.

(** A header of the composed message that the custom headers do not set is
    the one the fixed part of the composition left. *)
Lemma composeMessage_header (mailBody : MailSendBody.t) (p : Personalization.t)
      (m : gomail.Message) (key : string) :
  composeMessage mailBody p = inl m →
  key ∉ (Personalization.Headers p).*1 →
  gomail.header m !! key
  = gomail.header
      (setReplyTo mailBody p
         (gomail.SetHeader "Subject" [Personalization.Subject p]
            (setAddressHeaders "Bcc" (Personalization.BCC p)
               (setAddressHeaders "Cc" (Personalization.CC p)
                  (setAddressHeaders "To" (Personalization.To p)
                     (gomail.SetHeader "From"
                        [gomail.FormatAddress
                           (EmailAddress.Email (MailSendBody.From mailBody))
                           (EmailAddress.Name (MailSendBody.From mailBody))]
                        gomail.NewMessage)))))) !! key.
Proof.
  unfold composeMessage. intros H Hkey. apply attachAll_keeps in H as [-> _].
  rewrite setBodies_header. now apply setCustomHeaders_lookup.
Qed.

End MessageProperties.

(** ** The layout of the rendered text *)

(** [len(s) > 0] on a slice. *)
Lemma nonempty_length {A : Type} (l : list A) :
  (0 <? Z.of_nat (length l)) = match l with [] => false | _ => true end.
Proof. destruct l; reflexivity. Qed.

Lemma renderMessage_layout (mailBody : MailSendBody.t) (p : Personalization.t) :
  renderMessage mailBody p
  = fromLine mailBody
      +:+ addressLine "To: " (Personalization.To p)
      +:+ optionalLine "CC: " (Personalization.CC p)
      +:+ optionalLine "BCC: " (Personalization.BCC p)
      +:+ subjectLine p
      +:+ renderReplyTo mailBody p
      +:+ pieces renderHeader (Personalization.Headers p)
      +:+ LF
      +:+ renderedBody mailBody
      +:+ pieces renderAttachment (MailSendBody.Attachments mailBody).
Proof.
  unfold renderMessage, renderedBody, fromLine, addressLine, subjectLine, formatAddressList.
  rewrite !writeAll_pieces, !fill_indexed_fmap, !nonempty_length.
  destruct (Personalization.CC p) as [|c cs]; destruct (Personalization.BCC p) as [|b bs];
    cbn [optionalLine]; unfold addressLine;
    rewrite ?append_empty_l, ?append_assoc; reflexivity.
Qed.

(** ** The port read from the environment *)

Lemma ParseUint_loop_syntax (s : list ascii) (n : Z) :
  snd (strconv.ParseUint_loop s n) = Some strconv.ErrSyntax →
  fst (strconv.ParseUint_loop s n) = 0.
Proof.
  revert n. induction s as [|c rest IH]; intros n; cbn [strconv.ParseUint_loop].
  - discriminate.
  - destruct (negb _); [reflexivity|].
    destruct (_ <=? n); [discriminate|].
    destruct (_ || _); [discriminate|]. apply IH.
Qed.





Lemma Getenv_insert_eq (env : gmap string string) (key value : string) :
  Getenv (<[key := value]> env) key = value.
Proof. unfold Getenv. now rewrite lookup_insert_eq. Qed.

Lemma Getenv_insert_ne (env : gmap string string) (key key' value : string) :
  key ≠ key' → Getenv (<[key := value]> env) key' = Getenv env key'.
Proof. intros Hne. unfold Getenv. now rewrite lookup_insert_ne. Qed.




(** ** The handler and the sender *)

Section Claims.
Context {enc : gomail.WordEncoder} {Net : Type} {relay : Relay Net}.

Lemma sendEmails_spec (env : gmap string string) (mailBody : MailSendBody.t)
      (w : World Net) :
  sendEmails env mailBody w
  = match configureEncryption (Getenv env "SMTP_ENCRYPT") (newDialer env) with
    | inr err => (Some err, w)
    | inl d => sendLoop d mailBody (MailSendBody.Personalizations mailBody) w
    end.
Proof.
  unfold sendEmails.
  destruct (configureEncryption (Getenv env "SMTP_ENCRYPT") (newDialer env)); reflexivity.
Qed.

Lemma handleSendEmail_sends (env : gmap string string) (r : Request)
      (mailBody : MailSendBody.t) (w : World Net) :
  sends r mailBody →
  handleSendEmail env r w
  = match sendEmails env mailBody w with
    | (Some e, w') => (http_Error (Error e) StatusInternalServerError, w')
    | (None, w') => ({| Status := StatusAccepted; Body := NoBody |}, w')
    end.
Proof.
  intros (Hm & Hd & Hq). unfold handleSendEmail. rewrite Hm, Hd. cbn [negb].
  apply String.eqb_neq in Hq. rewrite String.eqb_refl, Hq. cbn [negb].
  unfold mbind, M_bind. destruct (sendEmails env mailBody w) as [[e|] w']; reflexivity.
Qed.


(** C3. The four answers of the handler: 405 for a method other than POST;
    400 for a POST whose body does not decode; 500 with the text of the
    error (as [http.Error] prints it, ended by a line feed) when
    [sendEmails] returns an error; 202 without a body when [sendEmails]
    returns none, which it does only after every personalization was
    delivered. *)
Theorem handler_status_codes (env : gmap string string) (r : Request) (w : World Net) :
  (Method r ≠ "POST" →
     handleSendEmail env r w
     = ({| Status := 405; Body := Plain ("Method not allowed" +:+ LF) |}, w))
  ∧ (Method r = "POST" → Decode r = None →
     handleSendEmail env r w
     = ({| Status := 400; Body := Plain ("Invalid request body" +:+ LF) |}, w))
  ∧ (∀ mailBody e w', sends r mailBody →
       sendEmails env mailBody w = (Some e, w') →
       handleSendEmail env r w
       = ({| Status := 500; Body := Plain (Error e +:+ LF) |}, w'))
  ∧ (∀ mailBody w', sends r mailBody →
       sendEmails env mailBody w = (None, w') →
       handleSendEmail env r w = ({| Status := 202; Body := NoBody |}, w')
       ∧ ∃ d ms, composed mailBody (MailSendBody.Personalizations mailBody) ms
                 ∧ trace w' = trace w ++ deliveries d ms).
Proof.
  split; [|split; [|split]].
  - intros Hm. unfold handleSendEmail. apply String.eqb_neq in Hm. now rewrite Hm.
  - intros Hm Hd. unfold handleSendEmail. now rewrite Hm, Hd.
  - intros mailBody e w' Hs Hsend. rewrite (handleSendEmail_sends _ _ _ _ Hs), Hsend.
    reflexivity.
  - intros mailBody w' Hs Hsend. split.
    + rewrite (handleSendEmail_sends _ _ _ _ Hs), Hsend. reflexivity.
    + rewrite sendEmails_spec in Hsend.
      destruct (configureEncryption (Getenv env "SMTP_ENCRYPT") (newDialer env))
        as [d|err]; [|discriminate].
      apply sendLoop_spec in Hsend as (ms & Hms & Htr). now exists d, ms.
Qed.

(** C9. With [SMTP_ENCRYPT] other than [SSL], [TLS] and [PLAIN],
    [sendEmails] returns the configuration error and leaves the relay and
    the trace untouched: nothing is dialled, nothing is sent. The handler
    answers 500 with that error. *)
Theorem invalid_encrypt_rejected_without_dial
        (env : gmap string string) (mailBody : MailSendBody.t) (w : World Net) :
  Getenv env "SMTP_ENCRYPT" ≠ "SSL" →
  Getenv env "SMTP_ENCRYPT" ≠ "TLS" →
  Getenv env "SMTP_ENCRYPT" ≠ "PLAIN" →
  sendEmails env mailBody w = (Some (InvalidEncrypt (Getenv env "SMTP_ENCRYPT")), w)
  ∧ ∀ r, sends r mailBody →
      handleSendEmail env r w
      = ({| Status := 500;
            Body := Plain ("invalid SMTP_ENCRYPT value: "
                             +:+ Getenv env "SMTP_ENCRYPT" +:+ LF) |}, w).
Proof.
  intros H1 H2 H3.
  assert (Hsend : sendEmails env mailBody w
                  = (Some (InvalidEncrypt (Getenv env "SMTP_ENCRYPT")), w)).
  { rewrite sendEmails_spec. now rewrite configureEncryption_invalid. }
  split; [exact Hsend|].
  intros r Hs. rewrite (handleSendEmail_sends _ _ _ _ Hs), Hsend.
  unfold http_Error. cbn [Error]. now rewrite append_assoc.
Qed.

(** C8, as the code has it. When the request has at least one
    personalization and one of its attachments does not decode,
    [sendEmails] returns an error before anything is dialled or sent, for
    any personalization: the relay and the trace are untouched. The error
    is the decoding error unless [SMTP_ENCRYPT] is rejected first. The
    handler answers 500 with it. *)
Theorem bad_attachment_aborts_before_any_send
        (env : gmap string string) (r : Request) (mailBody : MailSendBody.t)
        (w : World Net) :
  sends r mailBody →
  MailSendBody.Personalizations mailBody ≠ [] →
  (∃ a e, a ∈ MailSendBody.Attachments mailBody
          ∧ base64.DecodeString (Attachment.Content a) = inr e) →
  ∃ err, (err = InvalidEncrypt (Getenv env "SMTP_ENCRYPT")
          ∨ ∃ e, err = AttachmentDecode e)
         ∧ sendEmails env mailBody w = (Some err, w)
         ∧ handleSendEmail env r w
           = ({| Status := 500; Body := Plain (Error err +:+ LF) |}, w).
Proof.
  intros Hs Hps Hbad.
  assert (Hsend : ∃ err, (err = InvalidEncrypt (Getenv env "SMTP_ENCRYPT")
                          ∨ ∃ e, err = AttachmentDecode e)
                         ∧ sendEmails env mailBody w = (Some err, w)).
  { rewrite sendEmails_spec.
    destruct (configureEncryption (Getenv env "SMTP_ENCRYPT") (newDialer env))
      as [d|err] eqn:Hc.
    - destruct (MailSendBody.Personalizations mailBody) as [|p rest]; [congruence|].
      cbn [sendLoop]. unfold composeMessage.
      edestruct attachAll_bad as [e He]; [exact Hbad|].
      rewrite He. exists (AttachmentDecode e). split; [eauto | reflexivity].
    - exists err. split; [|reflexivity]. left.
      unfold configureEncryption in Hc.
      repeat match type of Hc with
             | (if ?b then _ else _) = _ => destruct b; [discriminate|]
             end.
      congruence. }
  destruct Hsend as (err & Hkind & Hsend). exists err. repeat split; try assumption.
  rewrite (handleSendEmail_sends _ _ _ _ Hs), Hsend. reflexivity.
Qed.

(** *** The loop over the personalizations *)

Lemma DialAndSend_delivered (d : gomail.Dialer) (m : gomail.Message) (w w' : World Net) :
  DialAndSend d m w = (None, w') → trace w' = trace w ++ attempt d m Delivered.
Proof.
  intros H. destruct (DialAndSend_outcome d m w) as (o & w2 & Hrun & Htr).
  rewrite Hrun in H. injection H as Ho <-. destruct o; try discriminate. exact Htr.
Qed.

(** After the deliveries of a prefix the loop goes on with the rest. *)
Lemma sendLoop_prefix (d : gomail.Dialer) (mailBody : MailSendBody.t)
      (ps1 rest : list Personalization.t) (ms : list gomail.Message) (w w1 : World Net) :
  composed mailBody ps1 ms → all_delivered d ms w w1 →
  sendLoop d mailBody (ps1 ++ rest) w = sendLoop d mailBody rest w1
  ∧ trace w1 = trace w ++ deliveries d ms.
Proof.
  intros Hms. revert w. induction Hms as [|p m ps1 ms Hm Hms IH]; intros w Hrun.
  - cbn in Hrun. subst w1. split; [reflexivity|]. cbn. now rewrite app_nil_r.
  - destruct Hrun as (w2 & Hsend & Hrest).
    destruct (IH w2 Hrest) as [Hloop Htr]. split.
    + cbn [app sendLoop]. rewrite Hm. unfold mbind, M_bind. rewrite Hsend. exact Hloop.
    + rewrite Htr, (DialAndSend_delivered _ _ _ _ Hsend).
      unfold deliveries. cbn [fmap list_fmap concat]. now rewrite <- !app_assoc.
Qed.

(** C2. When the send fails on the personalization numbered [k], that is,
    when the loop has delivered the personalizations before it and
    [DialAndSend] fails on its message, [sendEmails] returns that failure at
    once. The trace then holds a delivery for each of the personalizations
    1 to [k-1], in order, then the failed attempt on the one numbered [k],
    and nothing for those after it; nothing undoes the deliveries. *)
Theorem first_send_failure_aborts
        (env : gmap string string) (mailBody : MailSendBody.t) (d : gomail.Dialer)
        (k : nat) (w w' : World Net) (e : string) :
  configureEncryption (Getenv env "SMTP_ENCRYPT") (newDialer env) = inl d →
  send_fails_at d mailBody k w e w' →
  sendEmails env mailBody w = (Some (SendFailed e), w')
  ∧ ∃ ms p m o,
      composed mailBody (take (k - 1) (MailSendBody.Personalizations mailBody)) ms
      ∧ MailSendBody.Personalizations mailBody !! (k - 1)%nat = Some p
      ∧ composeMessage mailBody p = inl m
      ∧ outcome_error o = Some e
      ∧ trace w' = trace w ++ deliveries d ms ++ attempt d m o.
Proof.
  intros Hc (ps1 & p & ps2 & ms & m & w1 & Hps & -> & Hms & Hrun & Hm & Hfail).
  destruct (sendLoop_prefix d mailBody ps1 (p :: ps2) ms w w1 Hms Hrun) as [Hloop Htr].
  split.
  - rewrite sendEmails_spec, Hc, Hps, Hloop. cbn [sendLoop]. rewrite Hm.
    unfold mbind, M_bind. now rewrite Hfail.
  - destruct (DialAndSend_outcome d m w1) as (o & w2 & Ho & Htr').
    rewrite Ho in Hfail. injection Hfail as Hoe <-.
    exists ms, p, m, o. rewrite Hps.
    replace (S (length ps1) - 1)%nat with (length ps1 + 0)%nat by lia.
    rewrite take_app_add, take_0, app_nil_r by reflexivity.
    rewrite lookup_app_r by lia.
    replace (length ps1 + 0 - length ps1)%nat with 0%nat by lia.
    repeat split; try assumption. now rewrite Htr', Htr, <- app_assoc.
Qed.

Lemma sendLoop_failure_inv (d : gomail.Dialer) (mailBody : MailSendBody.t)
      (ps : list Personalization.t) (w w' : World Net) (e : string) :
  sendLoop d mailBody ps w = (Some (SendFailed e), w') →
  ∃ ps1 p ps2 ms m w1,
    ps = ps1 ++ p :: ps2
    ∧ composed mailBody ps1 ms ∧ all_delivered d ms w w1
    ∧ composeMessage mailBody p = inl m
    ∧ DialAndSend d m w1 = (Some e, w').
Proof.
  revert w. induction ps as [|p rest IH]; intros w H; cbn [sendLoop] in H.
  - discriminate.
  - destruct (composeMessage mailBody p) as [m|err] eqn:Hm; [|discriminate].
    unfold mbind, M_bind in H.
    destruct (DialAndSend d m w) as [[e'|] w2] eqn:Hsend.
    + injection H as <- <-. exists [], p, rest, [], m, w.
      repeat split; try assumption; constructor.
    + apply IH in H as (ps1 & q & ps2 & ms & mq & w1 & -> & Hms & Hrun & Hq & Hfail).
      exists (p :: ps1), q, ps2, (m :: ms), mq, w1.
      repeat split; try assumption; [constructor; assumption|].
      exists w2. split; assumption.
Qed.

(** Conversely, an error of sending returned by [sendEmails] comes from a
    send that fails on some personalization. *)
Lemma send_failure_inv (env : gmap string string) (mailBody : MailSendBody.t)
      (w w' : World Net) (e : string) :
  sendEmails env mailBody w = (Some (SendFailed e), w') →
  ∃ d k, configureEncryption (Getenv env "SMTP_ENCRYPT") (newDialer env) = inl d
         ∧ send_fails_at d mailBody k w e w'.
Proof.
  rewrite sendEmails_spec.
  destruct (configureEncryption (Getenv env "SMTP_ENCRYPT") (newDialer env))
    as [d|err] eqn:Hc; intros H.
  - apply sendLoop_failure_inv in H as (ps1 & p & ps2 & ms & m & w1 & H1 & H2).
    exists d, (S (length ps1)). split; [reflexivity|].
    exists ps1, p, ps2, ms, m, w1. split; [exact H1|]. split; [reflexivity | exact H2].
  - injection H as -> <-. unfold configureEncryption in Hc.
    repeat match type of Hc with
           | (if ?b then _ else _) = _ => destruct b; [discriminate|]
           end.
    discriminate.
Qed.

Lemma DialAndSend_connects {counts : CountsConnections Net}
      (d : gomail.Dialer) (m : gomail.Message) (w w' : World Net) :
  DialAndSend d m w = (None, w') →
  (connections (net w) + 1 ≤ connections (net w'))%nat.
Proof.
  unfold DialAndSend, mbind, M_bind, mret, M_ret, Dial, Send, Close.
  destruct (net_dial d (net w)) as [[e|] n1] eqn:Hdial; [discriminate|].
  cbn [net trace].
  destruct (net_send m n1) as [err n2] eqn:Hsend.
  intros [= _ <-]. cbn [net].
  pose proof (dial_connects d (net w) n1 Hdial).
  pose proof (send_keeps m n1 err n2 Hsend).
  pose proof (close_keeps n2). lia.
Qed.

Lemma sendLoop_connects {counts : CountsConnections Net}
      (d : gomail.Dialer) (mailBody : MailSendBody.t) (ps : list Personalization.t)
      (w w' : World Net) :
  sendLoop d mailBody ps w = (None, w') →
  (connections (net w) + length ps ≤ connections (net w'))%nat.
Proof.
  revert w. induction ps as [|p rest IH]; intros w H; cbn [sendLoop] in H.
  - injection H as <-. cbn. lia.
  - destruct (composeMessage mailBody p) as [m|e]; [|discriminate].
    unfold mbind, M_bind in H.
    destruct (DialAndSend d m w) as [[e|] w1] eqn:Hsend; [discriminate|].
    apply DialAndSend_connects in Hsend. apply IH in H. cbn [length]. lia.
Qed.

(** C5, as the code has it. A request that is sent in full dials a
    connection for each personalization, inside the loop: the relay has
    accepted at least as many connections more as the request has
    personalizations (the mail library may dial further ones while it
    sends), and for an empty list the relay is not reached at all. *)
Theorem a_connection_per_personalization {counts : CountsConnections Net}
        (env : gmap string string) (mailBody : MailSendBody.t) (w w' : World Net) :
  sendEmails env mailBody w = (None, w') →
  (connections (net w) + length (MailSendBody.Personalizations mailBody)
   ≤ connections (net w'))%nat
  ∧ (MailSendBody.Personalizations mailBody = [] → w' = w).
Proof.
  rewrite sendEmails_spec.
  destruct (configureEncryption (Getenv env "SMTP_ENCRYPT") (newDialer env))
    as [d|err]; [|discriminate].
  intros H. split.
  - now apply (sendLoop_connects d mailBody).
  - intros Hps. rewrite Hps in H. now injection H as <-.
Qed.

(** *** The port *)



End Claims.

(** ** The headers and the body of a message *)

(** *** The lines of the rendered header *)

Lemma chars_append (a b : string) : chars (a +:+ b) = chars a ++ chars b.
Proof.
  induction a as [|c a IH]; [reflexivity|].
  rewrite append_cons. cbn. f_equal. exact IH.
Qed.

Lemma oneLine_append (a b : string) : oneLine (a +:+ b) = oneLine a && oneLine b.
Proof. unfold oneLine. now rewrite chars_append, forallb_app. Qed.

Lemma textLines_not_nil (s : string) : textLines s ≠ [].
Proof.
  destruct s as [|c rest]; cbn; [discriminate|].
  destruct (code c =? 10); [discriminate|]. destruct (textLines rest); discriminate.
Qed.

(** A text without line feed before a text goes to the first line of it. *)
Lemma textLines_append (a s : string) :
  oneLine a = true →
  textLines (a +:+ s)
  = match textLines s with
    | l :: ls => (a +:+ l) :: ls
    | [] => [a]
    end.
Proof.
  induction a as [|c a IH]; intros Ha.
  - rewrite append_empty_l. pose proof (textLines_not_nil s).
    destruct (textLines s); [contradiction | reflexivity].
  - unfold oneLine in Ha. cbn [chars list_ascii_of_string forallb] in Ha.
    apply andb_true_iff in Ha as [Hc Ha]. apply andb_true_iff in Hc as [Hc _].
    rewrite append_cons. cbn [textLines].
    apply negb_true_iff in Hc. rewrite Hc, (IH Ha).
    pose proof (textLines_not_nil s). destruct (textLines s); [contradiction | reflexivity].
Qed.

Lemma textLines_line (content rest : string) :
  oneLine content = true → textLines (line content rest) = content :: textLines rest.
Proof.
  intros Hc. unfold line. rewrite (textLines_append _ _ Hc).
  change (LF +:+ rest) with (String (ascii_of_nat 10) rest). cbn [textLines].
  change (code (ascii_of_nat 10) =? 10) with true. cbn match.
  now rewrite append_empty_r.
Qed.

(** The header block of lines that are not empty, before an empty line. *)
Lemma headerBlock_lines (ls : list string) (body : string) :
  Forall (λ l, oneLine l = true ∧ l ≠ EmptyString) ls →
  headerBlock (textLines (fold_right line (LF +:+ body) ls)) = ls.
Proof.
  induction 1 as [|l ls [Hl Hne] Hls IH]; cbn [fold_right].
  - change (LF +:+ body) with (String (ascii_of_nat 10) body). reflexivity.
  - rewrite (textLines_line _ _ Hl). cbn [headerBlock]. rewrite IH.
    destruct l; [contradiction | reflexivity].
Qed.

Lemma pieces_renderHeader_lines (headers : StringMap) (rest : string) :
  pieces renderHeader headers +:+ rest
  = fold_right line rest ((λ kv, fst kv +:+ ": " +:+ snd kv) <$> headers).
Proof.
  induction headers as [|kv headers IH]; [reflexivity|].
  cbn [pieces fold_right fmap list_fmap]. fold (pieces renderHeader headers).
  unfold renderHeader at 1, line at 1. rewrite <- IH.
  now rewrite !append_assoc.
Qed.

(** The rendered text as its header lines, an empty line and the body. *)
Lemma renderMessage_lines (mailBody : MailSendBody.t) (p : Personalization.t) :
  renderMessage mailBody p
  = fold_right line
      (LF +:+ renderedBody mailBody
          +:+ pieces renderAttachment (MailSendBody.Attachments mailBody))
      (headerLines mailBody p).
Proof.
  rewrite renderMessage_layout. unfold headerLines.
  rewrite !fold_right_app, <- pieces_renderHeader_lines.
  unfold renderReplyTo, replyToOf, fromLine, addressLine, subjectLine, replyToLine.
  destruct (Personalization.CC p) as [|c cs]; destruct (Personalization.BCC p) as [|b bs];
    destruct (Personalization.ReplyTo p) as [r|];
    try destruct (MailSendBody.ReplyTo mailBody) as [r|];
    cbn [optionalLine addressLines fmap option_fmap option_map];
    unfold option_list; cbn [option_rect fold_right app];
    unfold addressLine, line; rewrite ?append_empty_l, ?append_assoc; reflexivity.
Qed.

Lemma oneLine_Join (elems : list string) (sep : string) :
  forallb oneLine elems = true → oneLine sep = true → oneLine (Join elems sep) = true.
Proof.
  intros Hall Hsep. induction elems as [|e rest IH]; [reflexivity|].
  cbn in Hall. apply andb_true_iff in Hall as [He Hrest].
  destruct rest as [|e' rest']; [exact He|].
  change (Join (e :: e' :: rest') sep) with (e +:+ sep +:+ Join (e' :: rest') sep).
  rewrite !oneLine_append, He, Hsep. now apply IH.
Qed.

Lemma oneLine_addresses (addresses : list EmailAddress.t) :
  forallb plainAddress addresses = true →
  oneLine (Join (sprintf_address <$> addresses) ", ") = true.
Proof.
  intros Hall. apply oneLine_Join; [|reflexivity].
  induction addresses as [|a rest IH]; [reflexivity|].
  cbn in Hall. apply andb_true_iff in Hall as [Ha Hrest].
  cbn [fmap list_fmap forallb]. fold (fmap sprintf_address rest).
  rewrite (IH Hrest), andb_true_r.
  unfold plainAddress in Ha. apply andb_true_iff in Ha as [Hn He].
  unfold sprintf_address. now rewrite !oneLine_append, Hn, He.
Qed.

Lemma label_not_empty (c : ascii) (label rest : string) :
  String c label +:+ rest ≠ EmptyString.
Proof. rewrite append_cons. discriminate. Qed.

(** The name of a line made of a name without colon, a colon and a text. *)
Lemma headerName_label (name rest : string) :
  noColon name = true → headerName (name +:+ ":" +:+ rest) = name.
Proof.
  induction name as [|c name IH]; intros Hname.
  - rewrite append_empty_l. reflexivity.
  - unfold noColon in Hname. cbn [chars list_ascii_of_string forallb] in Hname.
    apply andb_true_iff in Hname as [Hc Hname]. apply negb_true_iff in Hc.
    rewrite append_cons. cbn [headerName]. rewrite Hc. f_equal. now apply IH.
Qed.

Lemma plainHeader_line (kv : string * string) :
  plainHeader kv = true →
  oneLine (fst kv +:+ ": " +:+ snd kv) = true
  ∧ fst kv +:+ ": " +:+ snd kv ≠ EmptyString
  ∧ namesReplyTo (fst kv +:+ ": " +:+ snd kv) = false.
Proof.
  unfold plainHeader. intros H.
  apply andb_true_iff in H as [H Hne]. apply andb_true_iff in H as [H Hcolon].
  apply andb_true_iff in H as [Hk Hv]. split; [|split].
  - now rewrite !oneLine_append, Hk, Hv.
  - destruct (fst kv); [rewrite append_empty_l|]; apply label_not_empty.
  - unfold namesReplyTo.
    change (fst kv +:+ ": " +:+ snd kv) with (fst kv +:+ ":" +:+ (" " +:+ snd kv)).
    rewrite (headerName_label _ _ Hcolon). now apply negb_true_iff.
Qed.

Lemma plainHeaders_lines (headers : StringMap) :
  forallb plainHeader headers = true →
  Forall (λ l, oneLine l = true ∧ l ≠ EmptyString)
         ((λ kv, fst kv +:+ ": " +:+ snd kv) <$> headers)
  ∧ List.filter namesReplyTo ((λ kv, fst kv +:+ ": " +:+ snd kv) <$> headers) = [].
Proof.
  induction headers as [|kv headers IH]; intros Hall; [split; [constructor | reflexivity]|].
  cbn [forallb] in Hall. apply andb_true_iff in Hall as [Hkv Hall].
  destruct (IH Hall) as [IHlines IHnone].
  destruct (plainHeader_line kv Hkv) as (Hone & Hne & Hname).
  cbn [fmap list_fmap]. fold (fmap (λ kv, fst kv +:+ ": " +:+ snd kv) headers).
  split; [constructor; [split; assumption | exact IHlines]|].
  cbn [List.filter]. rewrite Hname. exact IHnone.
Qed.

Lemma addressLines_lines (label : string) (addresses : list EmailAddress.t) :
  oneLine label = true → label ≠ EmptyString →
  forallb plainAddress addresses = true →
  Forall (λ l, oneLine l = true ∧ l ≠ EmptyString) (addressLines label addresses).
Proof.
  intros Hlabel Hne Hall. unfold addressLines.
  destruct addresses as [|a rest]; constructor; [|constructor].
  split.
  - now rewrite oneLine_append, Hlabel, (oneLine_addresses _ Hall).
  - destruct label; [contradiction | apply label_not_empty].
Qed.

(** The header lines of a request with plain headers: no line is empty or
    broken, and the only [Reply-To] line is the one of the address that
    answers go to. *)
Lemma headerLines_plain (mailBody : MailSendBody.t) (p : Personalization.t) :
  plainHeaders mailBody p →
  Forall (λ l, oneLine l = true ∧ l ≠ EmptyString) (headerLines mailBody p)
  ∧ List.filter namesReplyTo (headerLines mailBody p)
    = option_list (replyToLine <$> replyToOf mailBody p).
Proof.
  intros (Hfrom & Hto & Hcc & Hbcc & Hsubject & Hreply & Hheaders).
  destruct (plainHeaders_lines _ Hheaders) as [Hlines Hnone].
  unfold plainAddress in Hfrom. apply andb_true_iff in Hfrom as [HfromN HfromE].
  unfold headerLines. split.
  - repeat apply Forall_app_2.
    + constructor; [|constructor; [|constructor]].
      * split; [|apply label_not_empty].
        now rewrite !oneLine_append, HfromN, HfromE.
      * split; [|apply label_not_empty].
        now rewrite oneLine_append, (oneLine_addresses _ Hto).
    + apply addressLines_lines; [reflexivity | discriminate | exact Hcc].
    + apply addressLines_lines; [reflexivity | discriminate | exact Hbcc].
    + constructor; [|constructor]. split; [|apply label_not_empty].
      now rewrite oneLine_append, Hsubject.
    + destruct (replyToOf mailBody p) as [r|]; [|constructor].
      cbn in Hreply. unfold plainAddress in Hreply.
      apply andb_true_iff in Hreply as [Hn He].
      constructor; [|constructor]. split; [|apply label_not_empty].
      unfold replyToLine. now rewrite !oneLine_append, Hn, He.
    + exact Hlines.
  - rewrite !List.filter_app, Hnone, app_nil_r.
    assert (Hlabel : ∀ name rest,
               noColon name = true → sameName name "Reply-To" = false →
               namesReplyTo (name +:+ ":" +:+ rest) = false).
    { intros name rest Hcolon Hname. unfold namesReplyTo.
      now rewrite (headerName_label _ _ Hcolon). }
    assert (Hcc' : List.filter namesReplyTo (addressLines "CC: " (Personalization.CC p)) = []).
    { unfold addressLines. destruct (Personalization.CC p); [reflexivity|].
      cbn [List.filter].
      change ("CC: " +:+ ?x) with ("CC" +:+ ":" +:+ (" " +:+ x)).
      now rewrite Hlabel. }
    assert (Hbcc' : List.filter namesReplyTo (addressLines "BCC: " (Personalization.BCC p)) = []).
    { unfold addressLines. destruct (Personalization.BCC p); [reflexivity|].
      cbn [List.filter].
      change ("BCC: " +:+ ?x) with ("BCC" +:+ ":" +:+ (" " +:+ x)).
      now rewrite Hlabel. }
    rewrite Hcc', Hbcc'. cbn [List.filter app].
    change ("From: " +:+ ?x) with ("From" +:+ ":" +:+ (" " +:+ x)).
    change ("To: " +:+ ?x) with ("To" +:+ ":" +:+ (" " +:+ x)).
    change ("Subject: " +:+ ?x) with ("Subject" +:+ ":" +:+ (" " +:+ x)).
    rewrite !Hlabel by reflexivity. cbn [app].
    destruct (replyToOf mailBody p) as [r|]; [|reflexivity].
    cbn [fmap option_fmap option_map]. unfold option_list. cbn [option_rect List.filter].
    unfold replyToLine at 1.
    change ("Reply-To: " +:+ ?x) with ("Reply-To" +:+ ":" +:+ (" " +:+ x)).
    unfold namesReplyTo. rewrite headerName_label by reflexivity. reflexivity.
Qed.

Section MessageClaims.
Context {enc : gomail.WordEncoder}.

Lemma setAddressHeaders_other (field key : string) (addresses : list EmailAddress.t)
      (m : gomail.Message) :
  field ≠ key →
  gomail.header (setAddressHeaders field addresses m) !! key = gomail.header m !! key.
Proof.
  intros Hne. rewrite setAddressHeaders_lookup.
  destruct (last addresses); [|reflexivity].
  destruct (decide (field = key)); [contradiction | reflexivity].
Qed.

(** [FormatAddress] on an empty name is the bare address. *)
Lemma FormatAddress_no_name (address : string) :
  gomail.FormatAddress address EmptyString = address.
Proof. reflexivity. Qed.

(** [FormatAddress] on a name of printable ASCII writes it between quotes. *)
Lemma FormatAddress_quoted (address name : string) :
  name ≠ EmptyString → mime.needsEncoding name = false →
  gomail.FormatAddress address name
  = (String DQUOTE (string_of_list_ascii (gomail.quoteName (chars name)))
       +:+ String DQUOTE EmptyString)
      +:+ " <" +:+ address +:+ ">".
Proof.
  intros Hname Hplain. unfold gomail.FormatAddress, gomail.encodeString.
  destruct name as [|c rest]; [contradiction|].
  now rewrite Hplain, String.eqb_refl.
Qed.

(** C6, as the code has it. The rendered [To] line has one entry for each
    address of the list, in order, each the name, a space and the address
    between angle brackets, also for an empty name. The send path formats
    an address with [FormatAddress]: the bare address, without angle
    brackets, for an empty name, and the quoted name before the bracketed
    address for a name of printable ASCII; for a list of one address that
    no custom header overrides, that entry is the [To] header. *)
Theorem to_header_formats (mailBody : MailSendBody.t) (p : Personalization.t) :
  (∃ rest,
     renderMessage mailBody p
     = fromLine mailBody
         +:+ ("To: "
                +:+ Join ((λ a, EmailAddress.Name a +:+ " <" +:+ EmailAddress.Email a +:+ ">")
                            <$> Personalization.To p) ", "
                +:+ LF)
         +:+ rest)
  ∧ (∀ a m, Personalization.To p = [a] →
       "To" ∉ (Personalization.Headers p).*1 →
       composeMessage mailBody p = inl m →
       gomail.header m !! "To"
       = Some [gomail.encodeString
                 (gomail.FormatAddress (EmailAddress.Email a) (EmailAddress.Name a))])
  ∧ (∀ address, gomail.FormatAddress address EmptyString = address)
  ∧ (∀ address name, name ≠ EmptyString → mime.needsEncoding name = false →
       gomail.FormatAddress address name
       = (String DQUOTE (string_of_list_ascii (gomail.quoteName (chars name)))
            +:+ String DQUOTE EmptyString)
           +:+ " <" +:+ address +:+ ">").
Proof.
  split; [|split; [|split]].
  - eexists. rewrite renderMessage_layout. unfold addressLine.
    rewrite !append_assoc. reflexivity.
  - intros a m Hto Hkey Hm.
    rewrite (composeMessage_header _ _ _ _ Hm Hkey).
    rewrite setReplyTo_lookup by discriminate.
    rewrite SetHeader_lookup. destruct (decide ("Subject" = "To")); [discriminate|].
    rewrite !setAddressHeaders_other by discriminate.
    rewrite setAddressHeaders_lookup, Hto. cbn [last].
    destruct (decide ("To" = "To")); [reflexivity | contradiction].
  - exact FormatAddress_no_name.
  - exact FormatAddress_quoted.
Qed.

(** C7, as the code has it. For every request and personalization, the
    renderer writes after the subject line the [Reply-To] line of the
    address of the personalization when it has one, else of the one of the
    request, and nothing when neither has one; this holds also for a
    request whose attachments do not decode. When no text of the header
    holds a line break and no custom header is named [Reply-To] (in
    whatever case) or has a colon in its name, the header block of the
    rendered text is made of the header lines alone, and its only
    [Reply-To] line is that one: there is none when neither address is
    given. In the message that is sent (all the attachments decode), when
    the custom headers hold no [Reply-To] entry, the [Reply-To] header is
    that address, and there is none when neither is given; a field whose
    name is [Reply-To] in another case exists only as a custom header. *)
Theorem reply_to_precedence (mailBody : MailSendBody.t) (p : Personalization.t) :
  renderMessage mailBody p
  = (fromLine mailBody
       +:+ addressLine "To: " (Personalization.To p)
       +:+ optionalLine "CC: " (Personalization.CC p)
       +:+ optionalLine "BCC: " (Personalization.BCC p)
       +:+ subjectLine p)
      +:+ match replyToOf mailBody p with
          | Some r => "Reply-To: " +:+ EmailAddress.Name r
                        +:+ " <" +:+ EmailAddress.Email r +:+ ">" +:+ LF
          | None => EmptyString
          end
      +:+ (pieces renderHeader (Personalization.Headers p)
             +:+ LF
             +:+ renderedBody mailBody
             +:+ pieces renderAttachment (MailSendBody.Attachments mailBody))
  ∧ (plainHeaders mailBody p →
     headerBlock (textLines (renderMessage mailBody p)) = headerLines mailBody p
     ∧ List.filter namesReplyTo (headerBlock (textLines (renderMessage mailBody p)))
       = option_list (replyToLine <$> replyToOf mailBody p))
  ∧ (∀ m, composeMessage mailBody p = inl m →
       ("Reply-To" ∉ (Personalization.Headers p).*1 →
        gomail.header m !! "Reply-To"
        = (λ r, [gomail.encodeString
                   (gomail.FormatAddress (EmailAddress.Email r) (EmailAddress.Name r))])
            <$> replyToOf mailBody p)
       ∧ (∀ key, sameName key "Reply-To" = true → key ≠ "Reply-To" →
            key ∉ (Personalization.Headers p).*1 →
            gomail.header m !! key = None)).
Proof.
  split; [|split].
  - rewrite renderMessage_layout. unfold renderReplyTo, replyToOf.
    destruct (Personalization.ReplyTo p) as [r|];
      [|destruct (MailSendBody.ReplyTo mailBody) as [r|]];
      rewrite !append_assoc; reflexivity.
  - intros Hplain. destruct (headerLines_plain _ _ Hplain) as [Hlines Hreply].
    rewrite renderMessage_lines, (headerBlock_lines _ _ Hlines).
    split; [reflexivity | exact Hreply].
  - intros m Hm. split.
    + intros Hkey. rewrite (composeMessage_header _ _ _ _ Hm Hkey).
      unfold setReplyTo, replyToOf.
      destruct (Personalization.ReplyTo p) as [r|];
        [|destruct (MailSendBody.ReplyTo mailBody) as [r|]].
      * rewrite SetHeader_lookup. destruct (decide ("Reply-To" = "Reply-To")); done.
      * rewrite SetHeader_lookup. destruct (decide ("Reply-To" = "Reply-To")); done.
      * rewrite SetHeader_lookup.
        destruct (decide ("Subject" = "Reply-To")); [discriminate|].
        rewrite !setAddressHeaders_other by discriminate.
        rewrite SetHeader_lookup.
        destruct (decide ("From" = "Reply-To")); [discriminate|]. reflexivity.
    + intros key Hname Hne Hkey. rewrite (composeMessage_header _ _ _ _ Hm Hkey).
      rewrite (setReplyTo_lookup _ _ _ _ Hne), SetHeader_lookup.
      destruct (decide ("Subject" = key)) as [<-|_]; [discriminate Hname|].
      rewrite !setAddressHeaders_other by (intros <-; discriminate Hname).
      rewrite SetHeader_lookup.
      destruct (decide ("From" = key)) as [<-|_]; [discriminate Hname|].
      apply lookup_empty.
Qed.

End MessageClaims.

(** ** The claims on concrete requests *)


(** The example of the specification: the rendered text of a request with one
    personalization. *)
Example dry_run_example :
  fst (handleSendEmail (enc := Examples.asciiOnly) (relay := Examples.unreachable)
         (Examples.env "587" "TLS")
         (Examples.post ["true"]
            (Some (Examples.body [Examples.hello] [Examples.text "hi"] [] None)))
         (Examples.start tt))
  = {| Status := 200;
       Body := JSON [("data",
         ["From: A <a@x.com>" +:+ LF +:+ "To: B <b@y.com>" +:+ LF +:+ "Subject: Hello" +:+ LF
            +:+ LF +:+ "Content-Type: text/plain" +:+ LF +:+ LF +:+ "hi" +:+ LF +:+ LF])] |}.
Proof. vm_compute. reflexivity. Qed.

Lemma first_send_failure_aborts_witness :
  let env := Examples.env "587" "TLS" in
  let e := "gomail: could not send email 1: 554 rejected" in
  (configureEncryption (Getenv env "SMTP_ENCRYPT") (newDialer env) = inl Examples.tls
   ∧ send_fails_at (enc := Examples.asciiOnly) (relay := Examples.refusing 2)
                   Examples.tls Examples.three 2 (Examples.start 0%nat)
                   e Examples.after_second)
  ∧ sendEmails (enc := Examples.asciiOnly) (relay := Examples.refusing 2)
               env Examples.three (Examples.start 0%nat)
    = (Some (SendFailed e), Examples.after_second)
  ∧ ∃ ms p m o,
      composed (enc := Examples.asciiOnly) Examples.three
               (take (2 - 1) (MailSendBody.Personalizations Examples.three)) ms
      ∧ MailSendBody.Personalizations Examples.three !! (2 - 1)%nat = Some p
      ∧ composeMessage (enc := Examples.asciiOnly) Examples.three p = inl m
      ∧ outcome_error o = Some e
      ∧ trace Examples.after_second
        = trace (Examples.start 0%nat)
            ++ deliveries Examples.tls ms ++ attempt Examples.tls m o.
Proof.
  intros env e.
  assert (Hc : configureEncryption (Getenv env "SMTP_ENCRYPT") (newDialer env)
               = inl Examples.tls) by (vm_compute; reflexivity).
  assert (Hfail : send_fails_at (enc := Examples.asciiOnly) (relay := Examples.refusing 2)
                    Examples.tls Examples.three 2 (Examples.start 0%nat)
                    e Examples.after_second).
  { exists [Examples.hello], Examples.two, [Examples.hello],
      [Examples.message Examples.three Examples.hello],
      (Examples.message Examples.three Examples.two), Examples.after_first.
    split; [reflexivity|]. split; [reflexivity|].
    split; [constructor; [vm_compute; reflexivity | constructor]|].
    split; [exists Examples.after_first; split; [vm_compute; reflexivity | reflexivity]|].
    split; vm_compute; reflexivity. }
  split; [exact (conj Hc Hfail)|].
  exact (first_send_failure_aborts
           (enc := Examples.asciiOnly) (relay := Examples.refusing 2)
           env Examples.three Examples.tls 2 (Examples.start 0%nat)
           Examples.after_second e Hc Hfail).
Defined.

Lemma handler_status_codes_witness :
  let env := Examples.env "587" "TLS" in
  let get := {| Method := "GET"; Query := ∅; Decode := Some Examples.three |} in
  let sent := Examples.post [] (Some Examples.three) in
  handleSendEmail (enc := Examples.asciiOnly) (relay := Examples.accepting)
                  env get (Examples.start tt)
  = ({| Status := 405; Body := Plain ("Method not allowed" +:+ LF) |}, Examples.start tt)
  ∧ handleSendEmail (enc := Examples.asciiOnly) (relay := Examples.accepting)
                    env (Examples.post [] None) (Examples.start tt)
    = ({| Status := 400; Body := Plain ("Invalid request body" +:+ LF) |}, Examples.start tt)
  ∧ handleSendEmail (enc := Examples.asciiOnly) (relay := Examples.refusing 2)
                    env sent (Examples.start 0%nat)
    = ({| Status := 500;
          Body := Plain ("failed to send email: gomail: could not send email 1: 554 rejected"
                           +:+ LF) |}, Examples.after_second)
  ∧ fst (handleSendEmail (enc := Examples.asciiOnly) (relay := Examples.accepting)
                         env sent (Examples.start tt))
    = {| Status := 202; Body := NoBody |}.
Proof.
  intros env get sent.
  assert (Hsent : sends sent Examples.three)
    by (repeat split; [vm_compute; discriminate]).
  split; [|split; [|split]].
  - apply (handler_status_codes (enc := Examples.asciiOnly) (relay := Examples.accepting)
             env get (Examples.start tt)). discriminate.
  - apply (handler_status_codes (enc := Examples.asciiOnly) (relay := Examples.accepting)
             env (Examples.post [] None) (Examples.start tt)); reflexivity.
  - apply (proj1 (proj2 (proj2
             (handler_status_codes (enc := Examples.asciiOnly)
                (relay := Examples.refusing 2) env sent (Examples.start 0%nat))))
             Examples.three
             (SendFailed "gomail: could not send email 1: 554 rejected")
             Examples.after_second Hsent).
    vm_compute. reflexivity.
  - pose (w' := snd (sendEmails (enc := Examples.asciiOnly) (relay := Examples.accepting)
                       env Examples.three (Examples.start tt))).
    destruct (proj2 (proj2 (proj2
               (handler_status_codes (enc := Examples.asciiOnly)
                  (relay := Examples.accepting) env sent (Examples.start tt))))
               Examples.three w' Hsent) as [-> _]; [vm_compute; reflexivity | reflexivity].
Defined.

Lemma invalid_encrypt_rejected_without_dial_witness :
  let env := Examples.env "587" "STARTTLS" in
  let r := Examples.post [] (Some Examples.three) in
  (Getenv env "SMTP_ENCRYPT" ≠ "SSL" ∧ Getenv env "SMTP_ENCRYPT" ≠ "TLS"
   ∧ Getenv env "SMTP_ENCRYPT" ≠ "PLAIN" ∧ sends r Examples.three)
  ∧ sendEmails (enc := Examples.asciiOnly) (relay := Examples.accepting)
               env Examples.three (Examples.start tt)
    = (Some (InvalidEncrypt "STARTTLS"), Examples.start tt)
  ∧ handleSendEmail (enc := Examples.asciiOnly) (relay := Examples.accepting)
                    env r (Examples.start tt)
    = ({| Status := 500; Body := Plain ("invalid SMTP_ENCRYPT value: STARTTLS" +:+ LF) |},
       Examples.start tt).
Proof.
  intros env r.
  assert (H1 : Getenv env "SMTP_ENCRYPT" ≠ "SSL") by (vm_compute; discriminate).
  assert (H2 : Getenv env "SMTP_ENCRYPT" ≠ "TLS") by (vm_compute; discriminate).
  assert (H3 : Getenv env "SMTP_ENCRYPT" ≠ "PLAIN") by (vm_compute; discriminate).
  assert (Hs : sends r Examples.three) by (repeat split; [vm_compute; discriminate]).
  split; [exact (conj H1 (conj H2 (conj H3 Hs)))|].
  destruct (invalid_encrypt_rejected_without_dial
              (enc := Examples.asciiOnly) (relay := Examples.accepting)
              env Examples.three (Examples.start tt) H1 H2 H3) as [Hsend Hhandle].
  split; [exact Hsend | exact (Hhandle r Hs)].
Defined.

(** C5, as stated, fails on a request of two personalizations: both are
    delivered and two connections are dialled, not one. *)
Lemma two_personalizations_two_dials :
  let run := sendEmails (enc := Examples.asciiOnly) (relay := Examples.accepting)
               (Examples.env "587" "TLS")
               (Examples.body [Examples.hello; Examples.two] [Examples.text "hi"] [] None)
               (Examples.start tt) in
  fst run = None ∧ dials (trace (snd run)) = 2%nat ∧ dials (trace (snd run)) ≠ 1%nat.
Proof. vm_compute. repeat split; discriminate. Qed.

Lemma a_connection_per_personalization_witness :
  let env := Examples.env "587" "TLS" in
  let run := sendEmails (enc := Examples.asciiOnly) (relay := More.reconnecting)
               env Examples.three (Examples.start 0%nat) in
  run = (None, snd run)
  ∧ (connections (CountsConnections := More.reconnecting_counts)
                 (net (Examples.start 0%nat))
     + length (MailSendBody.Personalizations Examples.three)
     ≤ connections (CountsConnections := More.reconnecting_counts) (net (snd run)))%nat
  ∧ connections (CountsConnections := More.reconnecting_counts) (net (snd run)) = 6%nat.
Proof.
  intros env run.
  assert (Hrun : run = (None, snd run)) by (vm_compute; reflexivity).
  split; [exact Hrun|]. split.
  - exact (proj1 (a_connection_per_personalization
                    (enc := Examples.asciiOnly) (relay := More.reconnecting)
                    (counts := More.reconnecting_counts)
                    env Examples.three (Examples.start 0%nat) (snd run) Hrun)).
  - vm_compute. reflexivity.
Defined.

(** C8, as stated, fails on a request without personalizations: the
    attachment that does not decode is never looked at and the answer is
    202. *)
Lemma bad_attachment_without_personalization_accepted :
  let mailBody := Examples.body [] [Examples.text "hi"] [Examples.broken] None in
  base64.DecodeString (Attachment.Content Examples.broken)
  = inr "illegal base64 data at input byte 0"
  ∧ sends (Examples.post [] (Some mailBody)) mailBody
  ∧ handleSendEmail (enc := Examples.asciiOnly) (relay := Examples.accepting)
                    (Examples.env "587" "TLS") (Examples.post [] (Some mailBody))
                    (Examples.start tt)
    = ({| Status := 202; Body := NoBody |}, Examples.start tt).
Proof.
  intros mailBody. split; [vm_compute; reflexivity|]. split.
  - repeat split. vm_compute. discriminate.
  - vm_compute. reflexivity.
Qed.

Lemma bad_attachment_aborts_before_any_send_witness :
  let env := Examples.env "587" "TLS" in
  let mailBody := Examples.body [Examples.hello; Examples.two] [Examples.text "hi"]
                                [Examples.broken] None in
  let r := Examples.post [] (Some mailBody) in
  (sends r mailBody ∧ MailSendBody.Personalizations mailBody ≠ []
   ∧ ∃ a e, a ∈ MailSendBody.Attachments mailBody
            ∧ base64.DecodeString (Attachment.Content a) = inr e)
  ∧ ∃ err, (err = InvalidEncrypt (Getenv env "SMTP_ENCRYPT")
            ∨ ∃ e, err = AttachmentDecode e)
           ∧ sendEmails (enc := Examples.asciiOnly) (relay := Examples.accepting)
                        env mailBody (Examples.start tt)
             = (Some err, Examples.start tt)
           ∧ handleSendEmail (enc := Examples.asciiOnly) (relay := Examples.accepting)
                             env r (Examples.start tt)
             = ({| Status := 500; Body := Plain (Error err +:+ LF) |}, Examples.start tt).
Proof.
  intros env mailBody r.
  assert (Hs : sends r mailBody) by (repeat split; vm_compute; discriminate).
  assert (Hps : MailSendBody.Personalizations mailBody ≠ []) by discriminate.
  assert (Hbad : ∃ a e, a ∈ MailSendBody.Attachments mailBody
                        ∧ base64.DecodeString (Attachment.Content a) = inr e).
  { exists Examples.broken, "illegal base64 data at input byte 0".
    split; [apply elem_of_cons; left; reflexivity | vm_compute; reflexivity]. }
  split; [exact (conj Hs (conj Hps Hbad))|].
  exact (bad_attachment_aborts_before_any_send
           (enc := Examples.asciiOnly) (relay := Examples.accepting)
           env r mailBody (Examples.start tt) Hs Hps Hbad).
Defined.


(** A text that is no integer may still give a range error, and then the
    largest [int]: twenty digits and a letter leave the range before the
    letter is read. A letter before the digits gives a syntax error and 0. *)
Lemma digits_then_letter_is_out_of_range :
  strconv.Atoi "99999999999999999999x" = (9223372036854775807, Some strconv.ErrRange)
  ∧ strconv.Atoi "-99999999999999999999x" = (-9223372036854775808, Some strconv.ErrRange)
  ∧ strconv.Atoi "x99999999999999999999" = (0, Some strconv.ErrSyntax)
  ∧ gomail.Port (newDialer (Examples.env "99999999999999999999x" "TLS"))
    = 9223372036854775807.
Proof. repeat split; vm_compute; reflexivity. Qed.


(** C4 on a request with a plain and an HTML content item. The rendered body
    holds both, in order, each after its marker; the message handed to the
    relay holds the HTML item alone: each [SetBody] of the loop replaced the
    body set before it, and the plain item is lost. *)
Theorem send_path_keeps_last_content_only :
  let mailBody := Examples.body [Examples.hello] Examples.plain_and_html [] None in
  renderedBody mailBody
  = "Content-Type: text/plain" +:+ LF +:+ LF +:+ "hi" +:+ LF +:+ LF
      +:+ "Content-Type: text/html" +:+ LF +:+ LF +:+ "<b>hi</b>" +:+ LF +:+ LF
  ∧ ∃ m, composeMessage (enc := Examples.asciiOnly) mailBody Examples.hello = inl m
         ∧ gomail.parts m
           = [ {| gomail.contentType := "text/html"; gomail.copier := "<b>hi</b>" |} ]
         ∧ sendEmails (enc := Examples.asciiOnly) (relay := Examples.accepting)
                      (Examples.env "587" "TLS") mailBody (Examples.start tt)
           = (None, {| net := tt;
                       trace := [EvDial Examples.tls None; EvSend m None; EvClose] |}).
Proof.
  intros mailBody. split; [vm_compute; reflexivity|].
  eexists. split; [vm_compute; reflexivity|].
  split; vm_compute; reflexivity.
Qed.

(** C6, as stated, fails in the send path on a recipient without a name: the
    [To] header is the bare address, without angle brackets. *)
Lemma send_path_to_header_bare_address :
  let mailBody := Examples.body [Examples.nameless] [Examples.text "hi"] [] None in
  ∃ m, composeMessage (enc := Examples.asciiOnly) mailBody Examples.nameless = inl m
       ∧ gomail.header m !! "To" = Some ["c@z.com"]
       ∧ gomail.header m !! "To"
         ≠ Some ((λ a, EmailAddress.Name a +:+ " <" +:+ EmailAddress.Email a +:+ ">")
                   <$> Personalization.To Examples.nameless)
       ∧ gomail.header m !! "To" ≠ Some ["<c@z.com>"].
Proof.
  intros mailBody. eexists. split; [vm_compute; reflexivity|].
  split; [vm_compute; reflexivity|]. split; vm_compute; discriminate.
Qed.

Lemma to_header_formats_witness :
  let mailBody := Examples.body [Examples.hello] [Examples.text "hi"] [] None in
  let m := Examples.message mailBody Examples.hello in
  (Personalization.To Examples.hello = [Examples.addr "B" "b@y.com"]
   ∧ ("To" ∉ (Personalization.Headers Examples.hello).*1)
   ∧ composeMessage (enc := Examples.asciiOnly) mailBody Examples.hello = inl m)
  ∧ gomail.header m !! "To"
    = Some [gomail.encodeString (enc := Examples.asciiOnly)
              (gomail.FormatAddress (enc := Examples.asciiOnly) "b@y.com" "B")]
  ∧ gomail.FormatAddress (enc := Examples.asciiOnly) "b@y.com" "B"
    = (String DQUOTE (string_of_list_ascii (gomail.quoteName (chars "B")))
         +:+ String DQUOTE EmptyString) +:+ " <" +:+ "b@y.com" +:+ ">".
Proof.
  intros mailBody m.
  assert (Hto : Personalization.To Examples.hello = [Examples.addr "B" "b@y.com"])
    by reflexivity.
  assert (Hkey : "To" ∉ (Personalization.Headers Examples.hello).*1)
    by (intros Hin; inversion Hin).
  assert (Hm : composeMessage (enc := Examples.asciiOnly) mailBody Examples.hello = inl m)
    by (vm_compute; reflexivity).
  split; [exact (conj Hto (conj Hkey Hm))|].
  destruct (to_header_formats (enc := Examples.asciiOnly) mailBody Examples.hello)
    as (_ & Hsend & _ & Hquoted).
  split.
  - exact (Hsend (Examples.addr "B" "b@y.com") m Hto Hkey Hm).
  - apply Hquoted; [discriminate | reflexivity].
Defined.

(** C7, as stated, fails on a personalization whose custom headers hold a
    [Reply-To] entry: the message that is sent carries the custom value, not
    the address of the personalization, and a personalization without any
    address to answer to still gets a [Reply-To] header, also in the
    rendered text. *)
Lemma custom_header_overrides_reply_to :
  let mailBody := Examples.body [Examples.overridden; Examples.custom_only]
                                [Examples.text "hi"] [] None in
  (Personalization.ReplyTo Examples.overridden = Some (Examples.addr "R" "r@p.com")
   ∧ ∃ m, composeMessage (enc := Examples.asciiOnly) mailBody Examples.overridden = inl m
          ∧ gomail.header m !! "Reply-To" = Some ["other@z.com"]
          ∧ gomail.header m !! "Reply-To"
            ≠ Some [gomail.FormatAddress (enc := Examples.asciiOnly) "r@p.com" "R"])
  ∧ (Personalization.ReplyTo Examples.custom_only = None
     ∧ MailSendBody.ReplyTo mailBody = None
     ∧ ∃ m, composeMessage (enc := Examples.asciiOnly) mailBody Examples.custom_only = inl m
            ∧ gomail.header m !! "Reply-To" = Some ["other@z.com"]
            ∧ renderMessage mailBody Examples.custom_only
              = "From: A <a@x.com>" +:+ LF +:+ "To: B <b@y.com>" +:+ LF
                  +:+ "Subject: Hi" +:+ LF +:+ "Reply-To: other@z.com" +:+ LF +:+ LF
                  +:+ "Content-Type: text/plain" +:+ LF +:+ LF +:+ "hi" +:+ LF +:+ LF).
Proof.
  intros mailBody. split.
  - split; [reflexivity|]. eexists. split; [vm_compute; reflexivity|].
    split; [vm_compute; reflexivity | vm_compute; discriminate].
  - split; [reflexivity|]. split; [reflexivity|].
    eexists. split; [vm_compute; reflexivity|]. split; vm_compute; reflexivity.
Qed.

(** The condition on line breaks is needed for the count of the [Reply-To]
    lines: a subject that holds a line feed and then the text of a header
    gives the rendered text a [Reply-To] line, although neither the
    personalization nor the request has an address to answer to and there
    is no custom header. The message that is sent has no such field. *)
Lemma subject_with_line_feed_renders_reply_to :
  let p := Examples.person [Examples.addr "B" "b@y.com"]
                           ("Hi" +:+ LF +:+ "Reply-To: x@z.com") [] None in
  let mailBody := Examples.body [p] [Examples.text "hi"] [] None in
  replyToOf mailBody p = None
  ∧ oneLine (Personalization.Subject p) = false
  ∧ List.filter namesReplyTo (headerBlock (textLines (renderMessage mailBody p)))
    = ["Reply-To: x@z.com"]
  ∧ ∃ m, composeMessage (enc := Examples.asciiOnly) mailBody p = inl m
         ∧ gomail.header m !! "Reply-To" = None.
Proof.
  intros p mailBody. split; [reflexivity|]. split; [reflexivity|].
  split; [vm_compute; reflexivity|].
  eexists. split; vm_compute; reflexivity.
Qed.

Lemma reply_to_precedence_witness :
  let mailBody := Examples.body [Examples.answered] [Examples.text "hi"] []
                                (Some (Examples.addr "Q" "q@x.com")) in
  let undecodable := Examples.body [Examples.answered] [Examples.text "hi"]
                                   [Examples.broken]
                                   (Some (Examples.addr "Q" "q@x.com")) in
  let m := Examples.message mailBody Examples.answered in
  (plainHeaders undecodable Examples.answered
   ∧ ("Reply-To" ∉ (Personalization.Headers Examples.answered).*1)
   ∧ composeMessage (enc := Examples.asciiOnly) mailBody Examples.answered = inl m
   ∧ composeMessage (enc := Examples.asciiOnly) undecodable Examples.answered
     = inr "illegal base64 data at input byte 0")
  ∧ List.filter namesReplyTo
      (headerBlock (textLines (renderMessage undecodable Examples.answered)))
    = ["Reply-To: R <r@p.com>"]
  ∧ gomail.header m !! "Reply-To"
    = Some [gomail.encodeString (enc := Examples.asciiOnly)
              (gomail.FormatAddress (enc := Examples.asciiOnly) "r@p.com" "R")]
  ∧ gomail.header m !! "reply-to" = None.
Proof.
  intros mailBody undecodable m.
  assert (Hplain : plainHeaders undecodable Examples.answered)
    by (repeat split; vm_compute; reflexivity).
  assert (Hkey : "Reply-To" ∉ (Personalization.Headers Examples.answered).*1).
  { intros Hin. apply elem_of_cons in Hin as [Hin|Hin]; [discriminate | inversion Hin]. }
  assert (Hkey' : "reply-to" ∉ (Personalization.Headers Examples.answered).*1).
  { intros Hin. apply elem_of_cons in Hin as [Hin|Hin]; [discriminate | inversion Hin]. }
  assert (Hm : composeMessage (enc := Examples.asciiOnly) mailBody Examples.answered = inl m)
    by (vm_compute; reflexivity).
  split; [split; [exact Hplain | split; [exact Hkey | split; [exact Hm|]]]|].
  { vm_compute. reflexivity. }
  destruct (reply_to_precedence (enc := Examples.asciiOnly) undecodable Examples.answered)
    as (_ & Hrender & _).
  destruct (reply_to_precedence (enc := Examples.asciiOnly) mailBody Examples.answered)
    as (_ & _ & Hsend).
  destruct (Hrender Hplain) as [_ Hreply]. destruct (Hsend m Hm) as [Hexact Hother].
  split; [exact Hreply|]. split; [exact (Hexact Hkey)|].
  apply Hother; [reflexivity | discriminate | exact Hkey'].
Defined.

(** * Further properties *)

(** ** The start of the process *)

Lemma collectMissing_from (env : gmap string string) (vars acc : list string) :
  fold_left (λ missing v,
               if String.eqb (Getenv env v) EmptyString then missing ++ [v] else missing)
            vars acc
  = acc ++ List.filter (λ v, String.eqb (Getenv env v) EmptyString) vars.
Proof.
  revert acc. induction vars as [|v vars IH]; intros acc; cbn [fold_left List.filter].
  - now rewrite app_nil_r.
  - rewrite IH. destruct (String.eqb (Getenv env v) EmptyString); [|reflexivity].
    now rewrite <- app_assoc.
Qed.

Lemma collectMissing_filter (env : gmap string string) (vars : list string) :
  collectMissing env vars
  = List.filter (λ v, String.eqb (Getenv env v) EmptyString) vars.
Proof. unfold collectMissing. now rewrite collectMissing_from. Qed.

(** What [godotenv.Load] leaves under each name. *)
Lemma godotenv_Load_lookup (envMap env : gmap string string) (key : string) :
  loaded (inl envMap) env !! key
  = match env !! key with
    | Some value => Some value
    | None =>
        match envMap !! key with
        | Some value => if Setenv_valid key value then Some value else None
        | None => None
        end
    end.
Proof.
  unfold loaded, godotenv_Load. cbn [snd]. revert key.
  apply (map_fold_weak_ind
           (λ r m, ∀ key,
              r !! key
              = match env !! key with
                | Some value => Some value
                | None =>
                    match m !! key with
                    | Some value => if Setenv_valid key value then Some value else None
                    | None => None
                    end
                end)).
  - intros key. rewrite lookup_empty. now destruct (env !! key).
  - intros i x m r Hi IH key. rewrite lookup_insert.
    destruct (decide (i = key)) as [->|Hne].
    + destruct (env !! key) as [v|] eqn:Hk.
      * rewrite IH, Hk. reflexivity.
      * unfold Setenv. destruct (Setenv_valid key x).
        -- now rewrite lookup_insert_eq.
        -- now rewrite IH, Hk, Hi.
    + destruct (env !! i) as [v|] eqn:Hk; [apply IH|].
      unfold Setenv. destruct (Setenv_valid i x); [|apply IH].
      rewrite lookup_insert_ne by exact Hne. apply IH.
Qed.

(** A variable that is set keeps its value through [godotenv.Load]. *)
Lemma loaded_keeps (dotenv : gmap string string + string) (env : gmap string string)
      (key value : string) :
  env !! key = Some value → loaded dotenv env !! key = Some value.
Proof.
  intros Hk. destruct dotenv as [envMap|err]; [|exact Hk].
  now rewrite godotenv_Load_lookup, Hk.
Qed.

Lemma Getenv_nonempty (env : gmap string string) (key : string) :
  Getenv env key ≠ EmptyString → ∃ value, env !! key = Some value ∧ value ≠ EmptyString.
Proof.
  unfold Getenv. destruct (env !! key) as [v|]; cbn; [eauto | contradiction].
Qed.

Lemma loaded_nonempty (dotenv : gmap string string + string) (env : gmap string string)
      (key : string) :
  String.eqb (Getenv (loaded dotenv env) key) EmptyString = true →
  String.eqb (Getenv env key) EmptyString = true.
Proof.
  intros H. destruct (String.eqb_spec (Getenv env key) EmptyString) as [|Hne]; [reflexivity|].
  apply Getenv_nonempty in Hne as (v & Hk & Hv).
  apply String.eqb_eq in H. unfold Getenv in H.
  rewrite (loaded_keeps dotenv env key v Hk) in H. contradiction.
Qed.

Lemma filter_filter_sub {A : Type} (f g : A → bool) (l : list A) :
  (∀ x, f x = true → g x = true) →
  List.filter f (List.filter g l) = List.filter f l.
Proof.
  intros Hsub. induction l as [|x l IH]; [reflexivity|]. cbn [List.filter].
  destruct (g x) eqn:Hg; cbn [List.filter].
  - now rewrite IH.
  - destruct (f x) eqn:Hf; [|exact IH]. apply Hsub in Hf. congruence.
Qed.

(** The variables still missing after the file are the required variables
    that are empty in the environment the file leaves. *)
Lemma stillMissing_filter (dotenv : gmap string string + string) (env : gmap string string) :
  collectMissing (loaded dotenv env) (collectMissing env requiredVars)
  = missingIn (loaded dotenv env).
Proof.
  rewrite !collectMissing_filter. unfold missingIn.
  apply filter_filter_sub. intros v. apply loaded_nonempty.
Qed.

(** [loadEnv] by cases on what is missing before and after the file. *)
Lemma loadEnv_cases (dotenv : gmap string string + string) (env : gmap string string) :
  loadEnv dotenv env
  = match missingIn env with
    | [] => ([], inl env)
    | _ :: _ =>
        (match dotenv with
         | inr e => ["Error loading .env file: " +:+ e]
         | inl _ => []
         end,
         match missingIn (loaded dotenv env) with
         | [] => inl (loaded dotenv env)
         | still =>
             inr ("Missing required environment variables: " +:+ Join still ", ")
         end)
    end.
Proof.
  unfold loadEnv. rewrite nonempty_length.
  pose proof (stillMissing_filter dotenv env) as Hstill.
  rewrite (collectMissing_filter env requiredVars) in *. fold (missingIn env) in *.
  destruct (missingIn env) as [|v vs] eqn:Hmiss; [reflexivity|].
  unfold loaded in *.
  destruct (godotenv_Load dotenv env) as [err env1] eqn:Hload. cbn [snd] in *.
  rewrite nonempty_length, Hstill.
  assert (Hlog : match err with
                 | Some e => ["Error loading .env file: " +:+ e]
                 | None => []
                 end
                 = match dotenv with
                   | inr e => ["Error loading .env file: " +:+ e]
                   | inl _ => []
                   end).
  { destruct dotenv; cbn in Hload; injection Hload as <- _; reflexivity. }
  rewrite Hlog. destruct (missingIn env1); reflexivity.
Qed.

Lemma missingIn_nil (env : gmap string string) :
  missingIn env = [] ↔ Forall (λ v, Getenv env v ≠ EmptyString) requiredVars.
Proof.
  unfold missingIn. induction requiredVars as [|v vars IH]; cbn [List.filter].
  - split; [constructor | reflexivity].
  - destruct (String.eqb_spec (Getenv env v) EmptyString) as [He|Hne].
    + split; [discriminate|]. intros H. apply Forall_cons in H as [H _]. contradiction.
    + rewrite IH. split; [now constructor | now intros [_ H]%Forall_cons].
Qed.

(** X1. When [loadEnv] lets the process go on, each of the five required
    variables has a value that is not empty in the environment it leaves. *)
Theorem loadEnv_leaves_required_set
        (dotenv : gmap string string + string) (env env' : gmap string string)
        (log : list string) :
  loadEnv dotenv env = (log, inl env') →
  Forall (λ v, Getenv env' v ≠ EmptyString) requiredVars.
Proof.
  rewrite loadEnv_cases. destruct (missingIn env) as [|v vs] eqn:Hmiss.
  - intros [= _ <-]. now apply missingIn_nil.
  - destruct (missingIn (loaded dotenv env)) as [|v' vs'] eqn:Hstill; [|discriminate].
    intros [= _ <-]. now apply missingIn_nil.
Qed.

(** X2. When the five required variables are set in the environment,
    [loadEnv] leaves the environment as it is and logs nothing, whatever the
    file [.env] holds and whether it can be read: the file is not looked
    at. *)
Theorem loadEnv_complete_environment_untouched
        (dotenv : gmap string string + string) (env : gmap string string) :
  Forall (λ v, Getenv env v ≠ EmptyString) requiredVars →
  loadEnv dotenv env = ([], inl env).
Proof. intros Hall. rewrite loadEnv_cases. apply missingIn_nil in Hall. now rewrite Hall. Qed.

(** X3. The environment wins over the file: a variable that is set, also to
    the empty value, keeps its value through [loadEnv]; a variable that is
    not set takes the value of the file, when the file is read and
    [os.Setenv] accepts the value, and stays unset otherwise. *)
Theorem loadEnv_environment_wins
        (dotenv : gmap string string + string) (env env' : gmap string string)
        (log : list string) (key : string) :
  loadEnv dotenv env = (log, inl env') →
  env' !! key = match env !! key with
                | Some value => Some value
                | None => fromFile dotenv env key
                end.
Proof.
  rewrite loadEnv_cases. unfold fromFile.
  destruct (missingIn env) as [|v vs] eqn:Hmiss.
  - intros [= _ <-]. now destruct (env !! key).
  - destruct (missingIn (loaded dotenv env)) as [|v' vs'] eqn:Hstill; [|discriminate].
    intros [= _ <-]. destruct dotenv as [envMap|err].
    + apply godotenv_Load_lookup.
    + cbn. now destruct (env !! key).
Qed.

(** X4. [loadEnv] ends the process exactly when a required variable is empty
    in the environment that the file leaves, and the message names these
    variables, in the order of the list of required variables, joined by a
    comma and a space. *)
Theorem loadEnv_fatal_names_missing
        (dotenv : gmap string string + string) (env : gmap string string) :
  match missingIn (loaded dotenv env) with
  | [] => ∃ env', snd (loadEnv dotenv env) = inl env'
  | still =>
      snd (loadEnv dotenv env)
      = inr ("Missing required environment variables: " +:+ Join still ", ")
  end.
Proof.
  rewrite loadEnv_cases.
  destruct (missingIn env) as [|v vs] eqn:Hmiss.
  - assert (Hstill : missingIn (loaded dotenv env) = []).
    { apply missingIn_nil. apply missingIn_nil in Hmiss.
      eapply Forall_impl; [exact Hmiss|]. intros x Hx Hempty.
      apply Hx. apply String.eqb_eq. apply (loaded_nonempty dotenv).
      now apply String.eqb_eq. }
    rewrite Hstill. now exists env.
  - cbn [snd]. destruct (missingIn (loaded dotenv env)); [eauto | reflexivity].
Qed.

(** X5. A required variable that is exported with the empty value cannot be
    filled from the file: [loadEnv] ends the process, whatever the file
    holds. *)
Theorem loadEnv_empty_export_is_fatal
        (dotenv : gmap string string + string) (env : gmap string string) (v : string) :
  v ∈ requiredVars → env !! v = Some EmptyString →
  ∃ message, snd (loadEnv dotenv env) = inr message.
Proof.
  intros Hv Hempty. rewrite loadEnv_cases.
  assert (Hin : ∀ e, e !! v = Some EmptyString → In v (missingIn e)).
  { intros e He. unfold missingIn. apply filter_In. split.
    - now apply list_elem_of_In.
    - unfold Getenv. now rewrite He. }
  pose proof (Hin env Hempty) as H1.
  pose proof (Hin (loaded dotenv env) (loaded_keeps dotenv env v _ Hempty)) as H2.
  destruct (missingIn env); [contradiction|].
  destruct (missingIn (loaded dotenv env)); [contradiction|]. eauto.
Qed.

(** X6. [loadEnv] on the environment it has left changes nothing and logs
    nothing, whatever the file has become. *)
Theorem loadEnv_idempotent
        (dotenv dotenv' : gmap string string + string) (env env' : gmap string string)
        (log : list string) :
  loadEnv dotenv env = (log, inl env') →
  loadEnv dotenv' env' = ([], inl env').
Proof.
  intros Hrun.
  assert (Hall : missingIn env' = []).
  { revert Hrun. rewrite loadEnv_cases. destruct (missingIn env) as [|v vs] eqn:Hmiss.
    - now intros [= _ <-].
    - destruct (missingIn (loaded dotenv env)) eqn:Hstill; [|discriminate].
      now intros [= _ <-]. }
  rewrite loadEnv_cases. now rewrite Hall.
Qed.

(** X7. With the five required variables set in the environment, the server
    listens on the port of the variable [PORT] of the environment, on 8080
    when it is not set; a [PORT] in the file [.env] is not used, as the file
    is not read. *)
Theorem main_ignores_file_when_complete
        (dotenv : gmap string string + string) (env : gmap string string) :
  Forall (λ v, Getenv env v ≠ EmptyString) requiredVars →
  main dotenv env
  = (["Server starting on port " +:+ default "8080" (env !! "PORT")],
     inl (env, ":" +:+ default "8080" (env !! "PORT"))).
Proof.
  intros Hall. unfold main. rewrite loadEnv_cases.
  apply missingIn_nil in Hall. rewrite Hall.
  unfold getEnv, LookupEnv. now destruct (env !! "PORT").
Qed.

(** X8. When the server starts, it listens on the port of the variable
    [PORT] of the environment when it is set, also to the empty value; else
    on the [PORT] of the file when the file was read and gave one; else on
    8080. *)
Theorem main_listen_address
        (dotenv : gmap string string + string) (env env' : gmap string string)
        (log : list string) (address : string) :
  main dotenv env = (log, inl (env', address)) →
  address
  = ":" +:+ match env !! "PORT" with
            | Some port => port
            | None => default "8080" (fromFile dotenv env "PORT")
            end.
Proof.
  unfold main, fromFile, getEnv, LookupEnv. rewrite loadEnv_cases.
  destruct (missingIn env) as [|v vs] eqn:Hmiss.
  - intros [= _ _ <-]. now destruct (env !! "PORT").
  - destruct (missingIn (loaded dotenv env)) as [|v' vs'] eqn:Hstill; [|discriminate].
    intros [= _ _ <-]. destruct dotenv as [envMap|err].
    + rewrite godotenv_Load_lookup. destruct (env !! "PORT"); [reflexivity|].
      destruct (envMap !! "PORT") as [port|]; [|reflexivity].
      now destruct (Setenv_valid "PORT" port).
    + cbn. now destruct (env !! "PORT").
Qed.

(** ** Fields that are read and fields that are not *)

Section FurtherMessages.
Context {enc : gomail.WordEncoder}.

Lemma composeMessage_same (mailBody mailBody' : MailSendBody.t) (p p' : Personalization.t) :
  same_mail mailBody mailBody' → same_recipient p p' →
  composeMessage mailBody p = composeMessage mailBody' p'.
Proof.
  intros (Hf & Hr & Hc & Ha) (Ht & Hcc & Hbcc & Hs & Hh & Hrp).
  unfold composeMessage, setReplyTo. now rewrite Hf, Hr, Hc, Ha, Ht, Hcc, Hbcc, Hs, Hh, Hrp.
Qed.

Lemma renderMessage_same (mailBody mailBody' : MailSendBody.t) (p p' : Personalization.t) :
  same_mail mailBody mailBody' → same_recipient p p' →
  renderMessage mailBody p = renderMessage mailBody' p'.
Proof.
  intros (Hf & Hr & Hc & Ha) (Ht & Hcc & Hbcc & Hs & Hh & Hrp).
  unfold renderMessage, renderReplyTo. now rewrite Hf, Hr, Hc, Ha, Ht, Hcc, Hbcc, Hs, Hh, Hrp.
Qed.

Lemma setAddressHeaders_attachments (field : string) (addresses : list EmailAddress.t)
      (m : gomail.Message) :
  gomail.attachments (setAddressHeaders field addresses m) = gomail.attachments m.
Proof.
  unfold setAddressHeaders. revert m.
  induction addresses as [|a rest IH]; intros m; [reflexivity|].
  cbn [fold_left]. now rewrite IH.
Qed.

Lemma setCustomHeaders_attachments (headers : StringMap) (m : gomail.Message) :
  gomail.attachments (setCustomHeaders headers m) = gomail.attachments m.
Proof.
  unfold setCustomHeaders. revert m.
  induction headers as [|kv rest IH]; intros m; [reflexivity|].
  cbn [fold_left]. now rewrite IH.
Qed.

Lemma setBodies_attachments (content : list ContentItem.t) (m : gomail.Message) :
  gomail.attachments (setBodies content m) = gomail.attachments m.
Proof.
  unfold setBodies. revert m. induction content as [|c rest IH]; intros m; [reflexivity|].
  cbn [fold_left]. now rewrite IH.
Qed.

Lemma setReplyTo_attachments (mailBody : MailSendBody.t) (p : Personalization.t)
      (m : gomail.Message) :
  gomail.attachments (setReplyTo mailBody p m) = gomail.attachments m.
Proof.
  unfold setReplyTo.
  destruct (Personalization.ReplyTo p); [|destruct (MailSendBody.ReplyTo mailBody)];
    reflexivity.
Qed.

(** The files a run of the loop over the attachments adds. *)
Lemma attachAll_attached (attachments : list Attachment.t) (m m' : gomail.Message) :
  attachAll attachments m = inl m' →
  ∃ files, gomail.attachments m' = gomail.attachments m ++ files
           ∧ Forall2 attached attachments files.
Proof.
  revert m. induction attachments as [|a rest IH]; intros m H; cbn [attachAll] in H.
  - injection H as <-. exists []. split; [now rewrite app_nil_r | constructor].
  - destruct (base64.DecodeString (Attachment.Content a)) as [bytes|e] eqn:Ha; [|discriminate].
    apply IH in H as (files & Hfiles & Hall). cbn [gomail.Attach gomail.attachments] in Hfiles.
    eexists (_ :: files). split.
    + rewrite Hfiles, <- app_assoc. reflexivity.
    + constructor; [|exact Hall]. repeat split. exact Ha.
Qed.

(** The loop over the attachments fails on the first one that does not
    decode, with the error of the decoder. *)
Lemma attachAll_first_undecodable (attachments : list Attachment.t) (m : gomail.Message)
      (e : string) :
  attachAll attachments m = inr e ↔ first_undecodable attachments e.
Proof.
  revert m. induction attachments as [|a rest IH]; intros m; cbn [attachAll].
  - split; [discriminate|]. intros (before & b & after & H & _). now destruct before.
  - destruct (base64.DecodeString (Attachment.Content a)) as [bytes|e'] eqn:Ha.
    + rewrite IH. split.
      * intros (before & b & after & -> & Hbefore & Hb).
        exists (a :: before), b, after. repeat split; [|exact Hb].
        constructor; [now exists bytes | exact Hbefore].
      * intros (before & b & after & Heq & Hbefore & Hb).
        destruct before as [|a0 before]; cbn in Heq; injection Heq as <- ->.
        -- congruence.
        -- apply Forall_cons in Hbefore as [_ Hbefore]. now exists before, b, after.
    + split.
      * intros [= ->]. exists [], a, rest. repeat split; [constructor | exact Ha].
      * intros (before & b & after & Heq & Hbefore & Hb).
        destruct before as [|a0 before]; cbn in Heq; injection Heq as <- ->.
        -- congruence.
        -- apply Forall_cons in Hbefore as [[bytes Hdec] _]. congruence.
Qed.

(** X9. A message cannot be composed exactly when an attachment of the
    request does not decode, and the error is the one of the first such
    attachment in the order of the array, whatever the personalization. *)
Theorem first_undecodable_attachment_reported
        (mailBody : MailSendBody.t) (p : Personalization.t) (e : string) :
  composeMessage mailBody p = inr e
  ↔ first_undecodable (MailSendBody.Attachments mailBody) e.
Proof. unfold composeMessage. apply attachAll_first_undecodable. Qed.

(** X10. A message that is composed carries one file for each attachment of
    the request, in the order of the array: named by the last element of the
    path in [filename], with no header of its own, and with the bytes the
    content decodes to. *)
Theorem attachments_carried_in_order
        (mailBody : MailSendBody.t) (p : Personalization.t) (m : gomail.Message) :
  composeMessage mailBody p = inl m →
  Forall2 attached (MailSendBody.Attachments mailBody) (gomail.attachments m).
Proof.
  unfold composeMessage. intros H.
  apply attachAll_attached in H as (files & Hfiles & Hall).
  rewrite setBodies_attachments, setCustomHeaders_attachments, setReplyTo_attachments in Hfiles.
  cbn [gomail.SetHeader gomail.attachments] in Hfiles.
  rewrite !setAddressHeaders_attachments in Hfiles. cbn in Hfiles.
  now rewrite Hfiles.
Qed.

(** X11. In the message that is sent, each of the headers [To], [Cc] and
    [Bcc] that no custom header sets holds one entry, for the last address
    of its list, and is absent when the list is empty: every [SetHeader] of
    the loop over a list replaces the entry of the address before. *)
Theorem address_headers_keep_last
        (mailBody : MailSendBody.t) (p : Personalization.t) (m : gomail.Message) :
  composeMessage mailBody p = inl m →
  ("To" ∉ (Personalization.Headers p).*1 →
     gomail.header m !! "To" = addressEntry <$> last (Personalization.To p))
  ∧ ("Cc" ∉ (Personalization.Headers p).*1 →
     gomail.header m !! "Cc" = addressEntry <$> last (Personalization.CC p))
  ∧ ("Bcc" ∉ (Personalization.Headers p).*1 →
     gomail.header m !! "Bcc" = addressEntry <$> last (Personalization.BCC p)).
Proof.
  intros Hm. split; [|split]; intros Hkey;
    rewrite (composeMessage_header _ _ _ _ Hm Hkey);
    rewrite setReplyTo_lookup by discriminate;
    rewrite SetHeader_lookup;
    (destruct (decide ("Subject" = _)); [discriminate|]).
  - rewrite !setAddressHeaders_other by discriminate.
    rewrite setAddressHeaders_lookup.
    destruct (last (Personalization.To p)); [now destruct (decide ("To" = "To"))|].
    rewrite SetHeader_lookup. now destruct (decide ("From" = "To")).
  - rewrite setAddressHeaders_other by discriminate.
    rewrite setAddressHeaders_lookup.
    destruct (last (Personalization.CC p)); [now destruct (decide ("Cc" = "Cc"))|].
    rewrite setAddressHeaders_other by discriminate.
    rewrite SetHeader_lookup. now destruct (decide ("From" = "Cc")).
  - rewrite setAddressHeaders_lookup.
    destruct (last (Personalization.BCC p)); [now destruct (decide ("Bcc" = "Bcc"))|].
    rewrite !setAddressHeaders_other by discriminate.
    rewrite SetHeader_lookup. now destruct (decide ("From" = "Bcc")).
Qed.

Lemma setCustomHeaders_in (headers : StringMap) (key value : string) (m : gomail.Message) :
  NoDup headers.*1 → (key, value) ∈ headers →
  gomail.header (setCustomHeaders headers m) !! key = Some [gomail.encodeString value].
Proof.
  revert m. induction headers as [|[k v] rest IH]; intros m Hnd Hin.
  - inversion Hin.
  - cbn in Hnd. apply NoDup_cons in Hnd as [Hk Hnd].
    change (setCustomHeaders ((k, v) :: rest) m)
      with (setCustomHeaders rest (gomail.SetHeader k [v] m)).
    apply elem_of_cons in Hin as [[= -> ->]|Hin].
    + rewrite setCustomHeaders_lookup by exact Hk.
      rewrite SetHeader_lookup. now destruct (decide (k = k)).
    + now apply IH.
Qed.

(** X12. A custom header of the personalization is in the message that is
    sent, under its own name and with its value, also when the name is the
    one of a header the program sets itself ([From], [To], [Subject],
    [Reply-To], ...): the custom headers are applied last. The names of the
    custom headers are distinct, as the keys of a map are. *)
Theorem custom_headers_take_precedence
        (mailBody : MailSendBody.t) (p : Personalization.t) (m : gomail.Message)
        (key value : string) :
  NoDup (Personalization.Headers p).*1 →
  (key, value) ∈ Personalization.Headers p →
  composeMessage mailBody p = inl m →
  gomail.header m !! key = Some [gomail.encodeString value].
Proof.
  unfold composeMessage. intros Hnd Hin Hm.
  apply attachAll_keeps in Hm as [-> _]. rewrite setBodies_header.
  now apply setCustomHeaders_in.
Qed.

End FurtherMessages.

(** ** Runs of the sender and of the handler *)

Lemma handed_app (es1 es2 : list Event) : handed (es1 ++ es2) = handed es1 ++ handed es2.
Proof. unfold handed. apply omap_app. Qed.

Lemma handed_deliveries (d : gomail.Dialer) (ms : list gomail.Message) :
  handed (deliveries d ms) = ms.
Proof.
  induction ms as [|m ms IH]; [reflexivity|].
  unfold deliveries in *. cbn [fmap list_fmap concat].
  rewrite handed_app, IH. reflexivity.
Qed.

Lemma Atoi_fast_loop_digits (s : list ascii) (n : Z) :
  forallb digit s = true →
  strconv.Atoi_fast_loop s n
  = (fold_left (λ n c, n * 10 + (code c - code "0")) s n, None).
Proof.
  revert n. induction s as [|c rest IH]; intros n Hs; [reflexivity|].
  cbn [forallb] in Hs. apply andb_true_iff in Hs as [Hc Hrest].
  cbn [strconv.Atoi_fast_loop fold_left].
  unfold digit in Hc. apply andb_true_iff in Hc as [Hlo Hhi].
  apply Z.leb_le in Hlo, Hhi.
  assert (Hcode : code "9" = code "0" + 9) by reflexivity.
  rewrite Z.mod_small by lia.
  destruct (9 <? code c - code "0") eqn:Hgt; [apply Z.ltb_lt in Hgt; lia|].
  now apply IH.
Qed.

Section FurtherRuns.
Context {enc : gomail.WordEncoder} {Net : Type} {relay : Relay Net}.

Lemma sendLoop_same (d : gomail.Dialer) (mailBody mailBody' : MailSendBody.t)
      (ps ps' : list Personalization.t) (w : World Net) :
  same_mail mailBody mailBody' → Forall2 same_recipient ps ps' →
  sendLoop d mailBody ps w = sendLoop d mailBody' ps' w.
Proof.
  intros Hmail Hps. revert w.
  induction Hps as [|p p' ps ps' Hp Hps IH]; intros w; [reflexivity|].
  cbn [sendLoop]. rewrite (composeMessage_same mailBody mailBody' p p' Hmail Hp).
  destruct (composeMessage mailBody' p') as [m|e]; [|reflexivity].
  unfold mbind, M_bind. destruct (DialAndSend d m w) as [[e|] w1]; [reflexivity | apply IH].
Qed.

(** X13. What is rendered and what is sent do not depend on the fields the
    program never reads: the request-level headers and subject, [mailfrom],
    and the DKIM fields and the [from] of a personalization. Two requests
    that agree on the other fields render the same texts and make the same
    run of [sendEmails]. *)
Theorem unread_fields_do_not_matter
        (env : gmap string string) (mailBody mailBody' : MailSendBody.t) (w : World Net) :
  same_mail mailBody mailBody' →
  Forall2 same_recipient (MailSendBody.Personalizations mailBody)
          (MailSendBody.Personalizations mailBody') →
  sendEmails env mailBody w = sendEmails env mailBody' w
  ∧ Forall2 (λ p p', renderMessage mailBody p = renderMessage mailBody' p')
            (MailSendBody.Personalizations mailBody)
            (MailSendBody.Personalizations mailBody').
Proof.
  intros Hmail Hps. split.
  - rewrite !sendEmails_spec.
    destruct (configureEncryption (Getenv env "SMTP_ENCRYPT") (newDialer env));
      [now apply sendLoop_same | reflexivity].
  - eapply Forall2_impl; [exact Hps|]. intros p p' Hp. now apply renderMessage_same.
Qed.

(** X14. [TLS] and [PLAIN] are one and the same mode: a run of [sendEmails]
    with [SMTP_ENCRYPT=TLS] is the run with [SMTP_ENCRYPT=PLAIN]. *)
Theorem tls_and_plain_alike
        (env : gmap string string) (mailBody : MailSendBody.t) (w : World Net) :
  Getenv env "SMTP_ENCRYPT" = "TLS" →
  sendEmails env mailBody w
  = sendEmails (<["SMTP_ENCRYPT" := "PLAIN"]> env) mailBody w.
Proof.
  intros Htls. unfold sendEmails, newDialer.
  rewrite (Getenv_insert_ne env "SMTP_ENCRYPT" "SMTP_HOST") by discriminate.
  rewrite (Getenv_insert_ne env "SMTP_ENCRYPT" "SMTP_USER") by discriminate.
  rewrite (Getenv_insert_ne env "SMTP_ENCRYPT" "SMTP_PASSWORD") by discriminate.
  rewrite (Getenv_insert_ne env "SMTP_ENCRYPT" "SMTP_PORT") by discriminate.
  rewrite Getenv_insert_eq, Htls. reflexivity.
Qed.

(** X15. The dialer of a run takes host, port, user and password from the
    environment, and connects with implicit TLS exactly when [SMTP_ENCRYPT]
    is [SSL]: the choice [NewDialer] makes for port 465 is overwritten. *)
Theorem dialer_of_environment (env : gmap string string) (d : gomail.Dialer) :
  configureEncryption (Getenv env "SMTP_ENCRYPT") (newDialer env) = inl d →
  d = {| gomail.Host := Getenv env "SMTP_HOST";
         gomail.Port := fst (strconv.Atoi (Getenv env "SMTP_PORT"));
         gomail.Username := Getenv env "SMTP_USER";
         gomail.Password := Getenv env "SMTP_PASSWORD";
         gomail.SSL := String.eqb (Getenv env "SMTP_ENCRYPT") "SSL";
         gomail.TLSConfig := None |}.
Proof.
  unfold configureEncryption.
  destruct (String.eqb_spec (Getenv env "SMTP_ENCRYPT") "SSL") as [Hssl|Hssl];
    [now intros [= <-]|].
  destruct (String.eqb_spec (Getenv env "SMTP_ENCRYPT") "TLS") as [Htls|Htls];
    [now intros [= <-]|].
  destruct (String.eqb_spec (Getenv env "SMTP_ENCRYPT") "PLAIN") as [Hplain|Hplain];
    [now intros [= <-] | discriminate].
Qed.

(** X16. When [DialAndSend] succeeds for every personalization,
    [sendEmails] returns no error, and the messages it has handed to the
    mail library are the composed messages of the personalizations, each
    once, in the order of the request. *)
Theorem every_message_handed_over_in_order
        (env : gmap string string) (mailBody : MailSendBody.t) (d : gomail.Dialer)
        (ms : list gomail.Message) (w w1 : World Net) :
  configureEncryption (Getenv env "SMTP_ENCRYPT") (newDialer env) = inl d →
  composed mailBody (MailSendBody.Personalizations mailBody) ms →
  all_delivered d ms w w1 →
  sendEmails env mailBody w = (None, w1)
  ∧ ∃ es, trace w1 = trace w ++ es ∧ handed es = ms.
Proof.
  intros Hc Hms Hrun.
  destruct (sendLoop_prefix d mailBody _ [] ms w w1 Hms Hrun) as [Hloop Htr].
  rewrite app_nil_r in Hloop. split.
  - rewrite sendEmails_spec, Hc. exact Hloop.
  - exists (deliveries d ms). split; [exact Htr | apply handed_deliveries].
Qed.

(** X18. The handler acts on the relay only for a POST whose body decodes
    and whose [dry-run] parameter is not [true]: for every other request the
    state of the relay and the trace are left as they were. *)
Theorem handler_touches_relay_only_to_send
        (env : gmap string string) (r : Request) (w : World Net) :
  (∀ mailBody, ¬ sends r mailBody) →
  snd (handleSendEmail env r w) = w.
Proof.
  intros Hno. unfold handleSendEmail.
  destruct (String.eqb_spec (Method r) "POST") as [Hm|Hm]; [|reflexivity]. cbn [negb].
  destruct (Decode r) as [mailBody|] eqn:Hd; [|reflexivity].
  destruct (String.eqb_spec (Values_Get (Query r) "dry-run") "true") as [Hq|Hq];
    [reflexivity|].
  exfalso. apply (Hno mailBody). repeat split; assumption.
Qed.

Lemma sendEmails_undecodable (env : gmap string string) (mailBody : MailSendBody.t)
      (w : World Net) (e : string) :
  MailSendBody.Personalizations mailBody ≠ [] →
  first_undecodable (MailSendBody.Attachments mailBody) e →
  ∃ err, sendEmails env mailBody w = (Some err, w).
Proof.
  intros Hps Hbad. rewrite sendEmails_spec.
  destruct (configureEncryption (Getenv env "SMTP_ENCRYPT") (newDialer env)) as [d|err];
    [|eauto].
  destruct (MailSendBody.Personalizations mailBody) as [|p rest]; [contradiction|].
  cbn [sendLoop].
  apply (attachAll_first_undecodable _
           (setBodies (MailSendBody.Content mailBody)
              (setCustomHeaders (Personalization.Headers p)
                 (setReplyTo mailBody p
                    (gomail.SetHeader "Subject" [Personalization.Subject p]
                       (setAddressHeaders "Bcc" (Personalization.BCC p)
                          (setAddressHeaders "Cc" (Personalization.CC p)
                             (setAddressHeaders "To" (Personalization.To p)
                                (gomail.SetHeader "From"
                                   [gomail.FormatAddress
                                      (EmailAddress.Email (MailSendBody.From mailBody))
                                      (EmailAddress.Name (MailSendBody.From mailBody))]
                                   gomail.NewMessage))))))))) in Hbad.
  unfold composeMessage. rewrite Hbad. eauto.
Qed.

(** X19. The dry run does not decode the attachments: for a request with a
    personalization and an attachment that does not decode, the handler
    answers 200 with the rendered texts under [dry-run=true], and 500 for the
    same body without it; the relay is reached in neither case. *)
Theorem dry_run_does_not_decode_attachments
        (env : gmap string string) (mailBody : MailSendBody.t)
        (query query' : gmap string (list string)) (w : World Net) (e : string) :
  MailSendBody.Personalizations mailBody ≠ [] →
  first_undecodable (MailSendBody.Attachments mailBody) e →
  Values_Get query "dry-run" = "true" →
  Values_Get query' "dry-run" ≠ "true" →
  handleSendEmail env {| Method := "POST"; Query := query; Decode := Some mailBody |} w
  = ({| Status := 200;
        Body := JSON [("data", renderMessage mailBody
                                 <$> MailSendBody.Personalizations mailBody)] |}, w)
  ∧ ∃ text,
      handleSendEmail env {| Method := "POST"; Query := query'; Decode := Some mailBody |} w
      = ({| Status := 500; Body := Plain (text +:+ LF) |}, w).
Proof.
  intros Hps Hbad Hq Hq'. split.
  - unfold handleSendEmail. cbn [Method Decode Query]. rewrite Hq. cbn.
    now rewrite fill_indexed_fmap.
  - destruct (sendEmails_undecodable env mailBody w e Hps Hbad) as [err Hsend].
    exists (Error err). rewrite (handleSendEmail_sends env _ mailBody w).
    + now rewrite Hsend.
    + repeat split. exact Hq'.
Qed.

(** X20. The text of every answer 500 to a request that is sent: the value
    of [SMTP_ENCRYPT] that was rejected, or the error of the decoder on the
    first attachment that does not decode, or the error of the connection,
    or the error of the relay on the message (which the mail library numbers
    1, whatever the personalization); in the last two cases the failed
    attempt ends the trace. *)
Theorem texts_of_internal_errors
        (env : gmap string string) (r : Request) (mailBody : MailSendBody.t)
        (w w' : World Net) (resp : Response) :
  sends r mailBody →
  handleSendEmail env r w = (resp, w') →
  Status resp = 500 →
  ∃ text, Body resp = Plain (text +:+ LF)
    ∧ (text = "invalid SMTP_ENCRYPT value: " +:+ Getenv env "SMTP_ENCRYPT"
       ∨ (∃ e, first_undecodable (MailSendBody.Attachments mailBody) e
               ∧ text = "failed to decode attachment content: " +:+ e)
       ∨ (∃ d m es e, trace w' = trace w ++ es ++ attempt d m (DialFailed e)
                      ∧ text = "failed to send email: " +:+ e)
       ∨ (∃ d m es e, trace w' = trace w ++ es ++ attempt d m (SendRefused e)
                      ∧ text = "failed to send email: gomail: could not send email 1: "
                                 +:+ e)).
Proof.
  intros Hs Hrun Hstatus. rewrite (handleSendEmail_sends env r mailBody w Hs) in Hrun.
  destruct (sendEmails env mailBody w) as [[err|] w1] eqn:Hsend;
    injection Hrun as <- <-; [|discriminate].
  exists (Error err). split; [reflexivity|].
  rewrite sendEmails_spec in Hsend.
  destruct (configureEncryption (Getenv env "SMTP_ENCRYPT") (newDialer env))
    as [d|cerr] eqn:Hc.
  - apply sendLoop_spec in Hsend. destruct err as [v|e|e].
    + contradiction.
    + right. left. exists e. split; [|reflexivity].
      destruct Hsend as (Hps & _ & Hall).
      destruct (MailSendBody.Personalizations mailBody) as [|p rest]; [contradiction|].
      specialize (Hall p). unfold composeMessage in Hall.
      now apply attachAll_first_undecodable in Hall.
    + destruct Hsend as (ps1 & p & ps2 & ms & m & o & _ & _ & _ & Ho & Htr).
      right. right. destruct o as [|e'|e']; cbn in Ho; [discriminate| |].
      * left. injection Ho as <-. exists d, m, (deliveries d ms), e'. now split.
      * right. injection Ho as <-. exists d, m, (deliveries d ms), e'. split; [exact Htr|].
        cbn [Error]. reflexivity.
  - injection Hsend as <- <-. left.
    unfold configureEncryption in Hc.
    repeat match type of Hc with
           | (if ?b then _ else _) = _ => destruct b; [discriminate|]
           end.
    injection Hc as <-. reflexivity.
Qed.

(** X21. A value of [SMTP_PORT] of one to eighteen decimal digits becomes
    the port of the dialer as the number it writes, without any error and
    without any check against the range of ports. *)
Theorem decimal_port_is_taken_as_is (env : gmap string string) :
  (0 < len (Getenv env "SMTP_PORT") < 19) →
  forallb digit (chars (Getenv env "SMTP_PORT")) = true →
  strconv.Atoi (Getenv env "SMTP_PORT") = (decimal (Getenv env "SMTP_PORT"), None)
  ∧ gomail.Port (newDialer env) = decimal (Getenv env "SMTP_PORT").
Proof.
  intros [Hlo Hhi] Hdigits.
  assert (Hatoi : strconv.Atoi (Getenv env "SMTP_PORT")
                  = (decimal (Getenv env "SMTP_PORT"), None)).
  { unfold strconv.Atoi, decimal.
    apply Z.ltb_lt in Hlo, Hhi. rewrite Hlo, Hhi. cbn [andb].
    destruct (Getenv env "SMTP_PORT") as [|c rest] eqn:Hport; [discriminate|].
    assert (Hc : digit c = true).
    { cbn in Hdigits. now apply andb_true_iff in Hdigits as [Hc _]. }
    assert (Hsign : Ascii.eqb c "-" || Ascii.eqb c "+" = false).
    { unfold digit in Hc. apply andb_true_iff in Hc as [Hc1 Hc2].
      apply Z.leb_le in Hc1, Hc2.
      destruct (Ascii.eqb_spec c "-") as [->|_]; [vm_compute in Hc1; contradiction|].
      destruct (Ascii.eqb_spec c "+") as [->|_]; [vm_compute in Hc1; contradiction|].
      reflexivity. }
    rewrite Hsign. cbn [andb].
    rewrite (Atoi_fast_loop_digits _ 0 Hdigits).
    destruct (Ascii.eqb_spec c "-") as [->|_]; [discriminate | reflexivity]. }
  split; [exact Hatoi|]. unfold newDialer. cbn [gomail.NewDialer gomail.Port].
  now rewrite Hatoi.
Qed.

End FurtherRuns.

(** ** The further properties on concrete inputs *)

Lemma loadEnv_leaves_required_set_witness :
  let env' := loaded (inl Startup.file) Startup.partial in
  loadEnv (inl Startup.file) Startup.partial = ([], inl env')
  ∧ Forall (λ v, Getenv env' v ≠ EmptyString) requiredVars.
Proof.
  intros env'.
  assert (Hrun : loadEnv (inl Startup.file) Startup.partial = ([], inl env'))
    by (vm_compute; reflexivity).
  split; [exact Hrun|].
  exact (loadEnv_leaves_required_set (inl Startup.file) Startup.partial env' [] Hrun).
Defined.

Lemma loadEnv_complete_environment_untouched_witness :
  let dotenv := inr "open .env: no such file or directory" in
  Forall (λ v, Getenv Startup.complete v ≠ EmptyString) requiredVars
  ∧ loadEnv dotenv Startup.complete = ([], inl Startup.complete).
Proof.
  intros dotenv.
  assert (Hall : Forall (λ v, Getenv Startup.complete v ≠ EmptyString) requiredVars)
    by (repeat constructor; vm_compute; discriminate).
  split; [exact Hall|].
  exact (loadEnv_complete_environment_untouched dotenv Startup.complete Hall).
Defined.

Lemma loadEnv_environment_wins_witness :
  let env' := loaded (inl Startup.file) Startup.partial in
  loadEnv (inl Startup.file) Startup.partial = ([], inl env')
  ∧ env' !! "SMTP_HOST"
    = match Startup.partial !! "SMTP_HOST" with
      | Some value => Some value
      | None => fromFile (inl Startup.file) Startup.partial "SMTP_HOST"
      end
  ∧ env' !! "SMTP_HOST" = Some "smtp.x.com"
  ∧ env' !! "SMTP_PASSWORD" = Some "secret".
Proof.
  intros env'.
  assert (Hrun : loadEnv (inl Startup.file) Startup.partial = ([], inl env'))
    by (vm_compute; reflexivity).
  split; [exact Hrun|]. split.
  - exact (loadEnv_environment_wins (inl Startup.file) Startup.partial env' []
             "SMTP_HOST" Hrun).
  - split; vm_compute; reflexivity.
Defined.

(** The file gives a password only: the port is still missing, and it alone
    is named. *)
Example loadEnv_fatal_example :
  loadEnv (inl Startup.short_file) Startup.partial
  = ([], inr "Missing required environment variables: SMTP_PORT")
  ∧ loadEnv (inr "open .env: no such file or directory") Startup.partial
    = (["Error loading .env file: open .env: no such file or directory"],
       inr "Missing required environment variables: SMTP_PASSWORD, SMTP_PORT").
Proof. split; vm_compute; reflexivity. Qed.

Lemma loadEnv_empty_export_is_fatal_witness :
  ("SMTP_PASSWORD" ∈ requiredVars
   ∧ Startup.blank_password !! "SMTP_PASSWORD" = Some EmptyString)
  ∧ ∃ message, snd (loadEnv (inl Startup.file) Startup.blank_password) = inr message.
Proof.
  assert (Hv : "SMTP_PASSWORD" ∈ requiredVars)
    by (apply list_elem_of_In; cbn; tauto).
  assert (Hempty : Startup.blank_password !! "SMTP_PASSWORD" = Some EmptyString)
    by (vm_compute; reflexivity).
  split; [exact (conj Hv Hempty)|].
  exact (loadEnv_empty_export_is_fatal (inl Startup.file) Startup.blank_password
           "SMTP_PASSWORD" Hv Hempty).
Defined.

Lemma loadEnv_idempotent_witness :
  let env' := loaded (inl Startup.file) Startup.partial in
  loadEnv (inl Startup.file) Startup.partial = ([], inl env')
  ∧ loadEnv (inr "open .env: no such file or directory") env' = ([], inl env').
Proof.
  intros env'.
  assert (Hrun : loadEnv (inl Startup.file) Startup.partial = ([], inl env'))
    by (vm_compute; reflexivity).
  split; [exact Hrun|].
  exact (loadEnv_idempotent (inl Startup.file)
           (inr "open .env: no such file or directory") Startup.partial env' [] Hrun).
Defined.

Lemma main_ignores_file_when_complete_witness :
  Forall (λ v, Getenv Startup.complete v ≠ EmptyString) requiredVars
  ∧ Startup.file !! "PORT" = Some "9090"
  ∧ main (inl Startup.file) Startup.complete
    = (["Server starting on port " +:+ default "8080" (Startup.complete !! "PORT")],
       inl (Startup.complete, ":" +:+ default "8080" (Startup.complete !! "PORT")))
  ∧ ":" +:+ default "8080" (Startup.complete !! "PORT") = ":8080".
Proof.
  assert (Hall : Forall (λ v, Getenv Startup.complete v ≠ EmptyString) requiredVars)
    by (repeat constructor; vm_compute; discriminate).
  split; [exact Hall|]. split; [vm_compute; reflexivity|]. split.
  - exact (main_ignores_file_when_complete (inl Startup.file) Startup.complete Hall).
  - vm_compute. reflexivity.
Defined.

Lemma main_listen_address_witness :
  let env' := loaded (inl Startup.file) Startup.partial in
  main (inl Startup.file) Startup.partial
  = (["Server starting on port 9090"], inl (env', ":9090"))
  ∧ ":9090"
    = ":" +:+ match Startup.partial !! "PORT" with
              | Some port => port
              | None => default "8080" (fromFile (inl Startup.file) Startup.partial "PORT")
              end.
Proof.
  intros env'.
  assert (Hrun : main (inl Startup.file) Startup.partial
                 = (["Server starting on port 9090"], inl (env', ":9090")))
    by (vm_compute; reflexivity).
  split; [exact Hrun|].
  exact (main_listen_address (inl Startup.file) Startup.partial env'
           ["Server starting on port 9090"] ":9090" Hrun).
Defined.

(** The second of three attachments does not decode: its error is the one
    reported. *)
Example first_undecodable_attachment_example :
  composeMessage (enc := Examples.asciiOnly) More.with_files More.copied
  = inr "illegal base64 data at input byte 0".
Proof. vm_compute. reflexivity. Qed.

Lemma attachments_carried_in_order_witness :
  let m := Examples.message More.with_file More.copied in
  composeMessage (enc := Examples.asciiOnly) More.with_file More.copied = inl m
  ∧ Forall2 attached (MailSendBody.Attachments More.with_file) (gomail.attachments m)
  ∧ gomail.attachments m
    = [ {| gomail.Name := "hello.txt"; gomail.Header := ∅;
           gomail.CopyFunc := [Byte.x68; Byte.x65; Byte.x6c; Byte.x6c; Byte.x6f] |} ].
Proof.
  intros m.
  assert (Hm : composeMessage (enc := Examples.asciiOnly) More.with_file More.copied = inl m)
    by (vm_compute; reflexivity).
  split; [exact Hm|]. split.
  - exact (attachments_carried_in_order (enc := Examples.asciiOnly)
             More.with_file More.copied m Hm).
  - vm_compute. reflexivity.
Defined.

Lemma address_headers_keep_last_witness :
  let m := Examples.message More.with_file More.copied in
  composeMessage (enc := Examples.asciiOnly) More.with_file More.copied = inl m
  ∧ gomail.header m !! "To"
    = addressEntry (enc := Examples.asciiOnly) <$> last (Personalization.To More.copied)
  ∧ gomail.header m !! "To" = Some [String DQUOTE ("C" +:+ String DQUOTE " <c@y.com>")]
  ∧ gomail.header m !! "Bcc" = None.
Proof.
  intros m.
  assert (Hm : composeMessage (enc := Examples.asciiOnly) More.with_file More.copied = inl m)
    by (vm_compute; reflexivity).
  split; [exact Hm|]. split.
  - apply (address_headers_keep_last (enc := Examples.asciiOnly)
             More.with_file More.copied m Hm).
    apply (bool_decide_unpack _). vm_compute. exact I.
  - split; vm_compute; reflexivity.
Defined.

Lemma custom_headers_take_precedence_witness :
  let m := Examples.message More.with_file More.copied in
  (NoDup (Personalization.Headers More.copied).*1
   ∧ ("Subject", "Other") ∈ Personalization.Headers More.copied
   ∧ composeMessage (enc := Examples.asciiOnly) More.with_file More.copied = inl m)
  ∧ gomail.header m !! "Subject"
    = Some [gomail.encodeString (enc := Examples.asciiOnly) "Other"].
Proof.
  intros m.
  assert (Hnd : NoDup (Personalization.Headers More.copied).*1)
    by (apply (bool_decide_unpack _); vm_compute; exact I).
  assert (Hin : ("Subject", "Other") ∈ Personalization.Headers More.copied)
    by (apply (bool_decide_unpack _); vm_compute; exact I).
  assert (Hm : composeMessage (enc := Examples.asciiOnly) More.with_file More.copied = inl m)
    by (vm_compute; reflexivity).
  split; [exact (conj Hnd (conj Hin Hm))|].
  exact (custom_headers_take_precedence (enc := Examples.asciiOnly)
           More.with_file More.copied m "Subject" "Other" Hnd Hin Hm).
Defined.

Lemma unread_fields_do_not_matter_witness :
  let env := Examples.env "587" "TLS" in
  (same_mail Examples.three More.three_decorated
   ∧ Forall2 same_recipient (MailSendBody.Personalizations Examples.three)
             (MailSendBody.Personalizations More.three_decorated))
  ∧ sendEmails (enc := Examples.asciiOnly) (relay := Examples.refusing 2)
               env Examples.three (Examples.start 0%nat)
    = sendEmails (enc := Examples.asciiOnly) (relay := Examples.refusing 2)
                 env More.three_decorated (Examples.start 0%nat)
  ∧ Forall2 (λ p p', renderMessage Examples.three p = renderMessage More.three_decorated p')
            (MailSendBody.Personalizations Examples.three)
            (MailSendBody.Personalizations More.three_decorated).
Proof.
  intros env.
  assert (Hmail : same_mail Examples.three More.three_decorated)
    by (repeat split; reflexivity).
  assert (Hps : Forall2 same_recipient (MailSendBody.Personalizations Examples.three)
                        (MailSendBody.Personalizations More.three_decorated))
    by (repeat constructor; reflexivity).
  split; [exact (conj Hmail Hps)|].
  exact (unread_fields_do_not_matter (enc := Examples.asciiOnly)
           (relay := Examples.refusing 2) env Examples.three More.three_decorated
           (Examples.start 0%nat) Hmail Hps).
Defined.

Lemma tls_and_plain_alike_witness :
  let env := Examples.env "587" "TLS" in
  Getenv env "SMTP_ENCRYPT" = "TLS"
  ∧ sendEmails (enc := Examples.asciiOnly) (relay := Examples.refusing 2)
               env Examples.three (Examples.start 0%nat)
    = sendEmails (enc := Examples.asciiOnly) (relay := Examples.refusing 2)
                 (<["SMTP_ENCRYPT" := "PLAIN"]> env) Examples.three (Examples.start 0%nat).
Proof.
  intros env.
  assert (Htls : Getenv env "SMTP_ENCRYPT" = "TLS") by (vm_compute; reflexivity).
  split; [exact Htls|].
  exact (tls_and_plain_alike (enc := Examples.asciiOnly) (relay := Examples.refusing 2)
           env Examples.three (Examples.start 0%nat) Htls).
Defined.

Lemma dialer_of_environment_witness :
  let env := Examples.env "465" "PLAIN" in
  let d := {| gomail.Host := "smtp.x.com"; gomail.Port := 465; gomail.Username := "u";
              gomail.Password := "pw"; gomail.SSL := false; gomail.TLSConfig := None |} in
  configureEncryption (Getenv env "SMTP_ENCRYPT") (newDialer env) = inl d
  ∧ gomail.SSL (newDialer env) = true
  ∧ d = {| gomail.Host := Getenv env "SMTP_HOST";
           gomail.Port := fst (strconv.Atoi (Getenv env "SMTP_PORT"));
           gomail.Username := Getenv env "SMTP_USER";
           gomail.Password := Getenv env "SMTP_PASSWORD";
           gomail.SSL := String.eqb (Getenv env "SMTP_ENCRYPT") "SSL";
           gomail.TLSConfig := None |}.
Proof.
  intros env d.
  assert (Hc : configureEncryption (Getenv env "SMTP_ENCRYPT") (newDialer env) = inl d)
    by (vm_compute; reflexivity).
  split; [exact Hc|]. split; [vm_compute; reflexivity|].
  exact (dialer_of_environment env d Hc).
Defined.

Lemma every_message_handed_over_in_order_witness :
  let env := Examples.env "587" "TLS" in
  let m1 := Examples.message Examples.three Examples.hello in
  let m2 := Examples.message Examples.three Examples.two in
  let ms := [m1; m2; m1] in
  (configureEncryption (Getenv env "SMTP_ENCRYPT") (newDialer env) = inl Examples.tls
   ∧ composed (enc := Examples.asciiOnly) Examples.three
              (MailSendBody.Personalizations Examples.three) ms
   ∧ all_delivered (relay := Examples.accepting) Examples.tls ms
                   (Examples.start tt) More.all_sent)
  ∧ sendEmails (enc := Examples.asciiOnly) (relay := Examples.accepting)
               env Examples.three (Examples.start tt)
    = (None, More.all_sent)
  ∧ ∃ es, trace More.all_sent = trace (Examples.start tt) ++ es ∧ handed es = ms.
Proof.
  intros env m1 m2 ms.
  assert (Hc : configureEncryption (Getenv env "SMTP_ENCRYPT") (newDialer env)
               = inl Examples.tls) by (vm_compute; reflexivity).
  assert (Hms : composed (enc := Examples.asciiOnly) Examples.three
                         (MailSendBody.Personalizations Examples.three) ms)
    by (repeat constructor; vm_compute; reflexivity).
  assert (Hrun : all_delivered (relay := Examples.accepting) Examples.tls ms
                               (Examples.start tt) More.all_sent).
  { exists (snd (DialAndSend (relay := Examples.accepting) Examples.tls m1 (Examples.start tt))).
    split; [vm_compute; reflexivity|].
    exists (snd (DialAndSend (relay := Examples.accepting) Examples.tls m2
                   (snd (DialAndSend (relay := Examples.accepting) Examples.tls m1
                           (Examples.start tt))))).
    split; [vm_compute; reflexivity|].
    exists More.all_sent. split; [vm_compute; reflexivity | reflexivity]. }
  split; [exact (conj Hc (conj Hms Hrun))|].
  exact (every_message_handed_over_in_order
           (enc := Examples.asciiOnly) (relay := Examples.accepting)
           env Examples.three Examples.tls ms (Examples.start tt) More.all_sent
           Hc Hms Hrun).
Defined.

Lemma handler_touches_relay_only_to_send_witness :
  let r := {| Method := "GET"; Query := ∅; Decode := Some Examples.three |} in
  (∀ mailBody, ¬ sends r mailBody)
  ∧ snd (handleSendEmail (enc := Examples.asciiOnly) (relay := Examples.accepting)
           (Examples.env "587" "TLS") r (Examples.start tt))
    = Examples.start tt.
Proof.
  intros r.
  assert (Hno : ∀ mailBody, ¬ sends r mailBody)
    by (intros mailBody (Hm & _); discriminate).
  split; [exact Hno|].
  exact (handler_touches_relay_only_to_send
           (enc := Examples.asciiOnly) (relay := Examples.accepting)
           (Examples.env "587" "TLS") r (Examples.start tt) Hno).
Defined.

Lemma dry_run_does_not_decode_attachments_witness :
  let env := Examples.env "587" "TLS" in
  let e := "illegal base64 data at input byte 0" in
  let query : gmap string (list string) := <["dry-run" := ["true"] ]> ∅ in
  let query' : gmap string (list string) := <["dry-run" := ["yes"] ]> ∅ in
  (MailSendBody.Personalizations More.with_files ≠ []
   ∧ first_undecodable (MailSendBody.Attachments More.with_files) e
   ∧ Values_Get query "dry-run" = "true"
   ∧ Values_Get query' "dry-run" ≠ "true")
  ∧ handleSendEmail (enc := Examples.asciiOnly) (relay := Examples.accepting) env
      {| Method := "POST"; Query := query; Decode := Some More.with_files |}
      (Examples.start tt)
    = ({| Status := 200;
          Body := JSON [("data", renderMessage More.with_files
                                   <$> MailSendBody.Personalizations More.with_files)] |},
       Examples.start tt)
  ∧ ∃ text,
      handleSendEmail (enc := Examples.asciiOnly) (relay := Examples.accepting) env
        {| Method := "POST"; Query := query'; Decode := Some More.with_files |}
        (Examples.start tt)
      = ({| Status := 500; Body := Plain (text +:+ LF) |}, Examples.start tt).
Proof.
  intros env e query query'.
  assert (Hps : MailSendBody.Personalizations More.with_files ≠ []) by discriminate.
  assert (Hbad : first_undecodable (MailSendBody.Attachments More.with_files) e).
  { exists [More.sound], Examples.broken, [More.sound]. split; [reflexivity|]. split.
    - repeat constructor.
      exists [Byte.x68; Byte.x65; Byte.x6c; Byte.x6c; Byte.x6f]. vm_compute. reflexivity.
    - vm_compute. reflexivity. }
  assert (Hq : Values_Get query "dry-run" = "true") by (vm_compute; reflexivity).
  assert (Hq' : Values_Get query' "dry-run" ≠ "true") by (vm_compute; discriminate).
  split; [exact (conj Hps (conj Hbad (conj Hq Hq')))|].
  exact (dry_run_does_not_decode_attachments
           (enc := Examples.asciiOnly) (relay := Examples.accepting)
           env More.with_files query query' (Examples.start tt) e Hps Hbad Hq Hq').
Defined.

Lemma texts_of_internal_errors_witness :
  let env := Examples.env "587" "TLS" in
  let r := Examples.post [] (Some Examples.three) in
  let resp := {| Status := 500;
                 Body := Plain ("failed to send email: gomail: could not send email 1: "
                                  +:+ "554 rejected" +:+ LF) |} in
  (sends r Examples.three
   ∧ handleSendEmail (enc := Examples.asciiOnly) (relay := Examples.refusing 2)
                     env r (Examples.start 0%nat)
     = (resp, Examples.after_second)
   ∧ Status resp = 500)
  ∧ ∃ text, Body resp = Plain (text +:+ LF)
    ∧ (text = "invalid SMTP_ENCRYPT value: " +:+ Getenv env "SMTP_ENCRYPT"
       ∨ (∃ e, first_undecodable (MailSendBody.Attachments Examples.three) e
               ∧ text = "failed to decode attachment content: " +:+ e)
       ∨ (∃ d m es e, trace Examples.after_second
                      = trace (Examples.start 0%nat) ++ es ++ attempt d m (DialFailed e)
                      ∧ text = "failed to send email: " +:+ e)
       ∨ (∃ d m es e, trace Examples.after_second
                      = trace (Examples.start 0%nat) ++ es ++ attempt d m (SendRefused e)
                      ∧ text = "failed to send email: gomail: could not send email 1: "
                                 +:+ e)).
Proof.
  intros env r resp.
  assert (Hs : sends r Examples.three) by (repeat split; vm_compute; discriminate).
  assert (Hrun : handleSendEmail (enc := Examples.asciiOnly) (relay := Examples.refusing 2)
                                 env r (Examples.start 0%nat)
                 = (resp, Examples.after_second)) by (vm_compute; reflexivity).
  assert (Hstatus : Status resp = 500) by reflexivity.
  split; [exact (conj Hs (conj Hrun Hstatus))|].
  exact (texts_of_internal_errors (enc := Examples.asciiOnly) (relay := Examples.refusing 2)
           env r Examples.three (Examples.start 0%nat) Examples.after_second resp
           Hs Hrun Hstatus).
Defined.

Lemma decimal_port_is_taken_as_is_witness :
  let env := Examples.env "70000" "TLS" in
  ((0 < len (Getenv env "SMTP_PORT") < 19)
   ∧ forallb digit (chars (Getenv env "SMTP_PORT")) = true)
  ∧ strconv.Atoi (Getenv env "SMTP_PORT") = (decimal (Getenv env "SMTP_PORT"), None)
  ∧ gomail.Port (newDialer env) = decimal (Getenv env "SMTP_PORT")
  ∧ decimal (Getenv env "SMTP_PORT") = 70000.
Proof.
  intros env.
  assert (Hlen : 0 < len (Getenv env "SMTP_PORT") < 19) by (split; vm_compute; reflexivity).
  assert (Hdigits : forallb digit (chars (Getenv env "SMTP_PORT")) = true)
    by (vm_compute; reflexivity).
  split; [exact (conj Hlen Hdigits)|].
  destruct (decimal_port_is_taken_as_is env Hlen Hdigits) as [Hatoi Hport].
  split; [exact Hatoi|]. split; [exact Hport | vm_compute; reflexivity].
Defined.

(** ** Edges: no personalization, no file *)

Section FurtherEdges.
Context {enc : gomail.WordEncoder} {Net : Type} {relay : Relay Net}.

(** X22. A request without personalizations is accepted: with a valid
    [SMTP_ENCRYPT], [sendEmails] returns no error without reaching the relay,
    whatever the content and the attachments, and the handler answers 202. *)
Theorem no_personalization_is_accepted
        (env : gmap string string) (r : Request) (mailBody : MailSendBody.t)
        (w : World Net) :
  sends r mailBody →
  MailSendBody.Personalizations mailBody = [] →
  Getenv env "SMTP_ENCRYPT" = "SSL" ∨ Getenv env "SMTP_ENCRYPT" = "TLS"
  ∨ Getenv env "SMTP_ENCRYPT" = "PLAIN" →
  sendEmails env mailBody w = (None, w)
  ∧ handleSendEmail env r w = ({| Status := 202; Body := NoBody |}, w).
Proof.
  intros Hs Hps Hvalid.
  assert (Hsend : sendEmails env mailBody w = (None, w)).
  { rewrite sendEmails_spec.
    destruct (configureEncryption_valid _ (newDialer env) Hvalid) as (d & -> & _).
    now rewrite Hps. }
  split; [exact Hsend|].
  rewrite (handleSendEmail_sends env r mailBody w Hs), Hsend. reflexivity.
Qed.

End FurtherEdges.

(** X23. When the file [.env] cannot be read, [loadEnv] goes on only with a
    complete environment, without a word in the log; with a required
    variable empty it logs the error of the file and ends the process,
    naming the variables that are empty in the environment. *)
Theorem loadEnv_without_file (e : string) (env : gmap string string) :
  loadEnv (inr e) env
  = match missingIn env with
    | [] => ([], inl env)
    | missing =>
        (["Error loading .env file: " +:+ e],
         inr ("Missing required environment variables: " +:+ Join missing ", "))
    end.
Proof.
  rewrite loadEnv_cases. unfold loaded. cbn [godotenv_Load snd].
  destruct (missingIn env) as [|v vs]; reflexivity.
Qed.

(** X24. The server starts only with the five required variables set, and
    then logs the port as its last line; when [loadEnv] ends the process,
    no line about the server is logged and nothing listens. *)
Theorem main_starts_only_configured
        (dotenv : gmap string string + string) (env : gmap string string) :
  match main dotenv env with
  | (log, inl (env', address)) =>
      Forall (λ v, Getenv env' v ≠ EmptyString) requiredVars
      ∧ ∃ port, address = ":" +:+ port
                ∧ last log = Some ("Server starting on port " +:+ port)
  | (log, inr message) =>
      missingIn (loaded dotenv env) ≠ []
      ∧ log = fst (loadEnv dotenv env)
      ∧ message = "Missing required environment variables: "
                    +:+ Join (missingIn (loaded dotenv env)) ", "
  end.
Proof.
  unfold main. rewrite loadEnv_cases.
  destruct (missingIn env) as [|v vs] eqn:Hmiss.
  - split; [now apply missingIn_nil|]. eexists. split; reflexivity.
  - destruct (missingIn (loaded dotenv env)) as [|v' vs'] eqn:Hstill.
    + split; [now apply missingIn_nil|]. eexists. split; [reflexivity|].
      now rewrite last_snoc.
    + split; [discriminate|]. split; reflexivity.
Qed.

Lemma no_personalization_is_accepted_witness :
  let env := Examples.env "587" "TLS" in
  let mailBody := Examples.body [] [Examples.text "hi"] [Examples.broken] None in
  let r := Examples.post [] (Some mailBody) in
  (sends r mailBody ∧ MailSendBody.Personalizations mailBody = []
   ∧ (Getenv env "SMTP_ENCRYPT" = "SSL" ∨ Getenv env "SMTP_ENCRYPT" = "TLS"
      ∨ Getenv env "SMTP_ENCRYPT" = "PLAIN"))
  ∧ sendEmails (enc := Examples.asciiOnly) (relay := Examples.unreachable)
               env mailBody (Examples.start tt)
    = (None, Examples.start tt)
  ∧ handleSendEmail (enc := Examples.asciiOnly) (relay := Examples.unreachable)
                    env r (Examples.start tt)
    = ({| Status := 202; Body := NoBody |}, Examples.start tt).
Proof.
  intros env mailBody r.
  assert (Hs : sends r mailBody) by (repeat split; vm_compute; discriminate).
  assert (Hps : MailSendBody.Personalizations mailBody = []) by reflexivity.
  assert (Hvalid : Getenv env "SMTP_ENCRYPT" = "SSL" ∨ Getenv env "SMTP_ENCRYPT" = "TLS"
                   ∨ Getenv env "SMTP_ENCRYPT" = "PLAIN")
    by (right; left; vm_compute; reflexivity).
  split; [exact (conj Hs (conj Hps Hvalid))|].
  exact (no_personalization_is_accepted
           (enc := Examples.asciiOnly) (relay := Examples.unreachable)
           env r mailBody (Examples.start tt) Hs Hps Hvalid).
Defined.
